(** * Draw-your-AOI: a model of [streamlit_app.py]

    The script is one linear Streamlit page that is re-executed from top to
    bottom on every user interaction.  One execution
    - initialises [st.session_state.gdf] with [load_gdf ()] when it is missing,
    - renders the page header and the Folium map with its drawing tool,
    - validates the last drawing reported by the map and, on a click on the
      save button, appends a record and rewrites the three files,
    - renders the table of the saved records, then calls [st.map] for the
      preview and, past it, renders the three download buttons.

    The embedding below follows the script statement by statement.  The state
    that survives an execution is the session's frame and the three files;
    everything the script does to the outside (elements put on the page, the
    assignment to the session, file writes) is recorded, in order, in a list
    of events.  The geometry library (shapely) and the readers and writers of
    geopandas are interfaces: every theorem holds for all their
    implementations, and a small planar instance runs the script on concrete
    drawings. *)

From stdpp Require Import base option list strings gmap pretty.

(** ** Config: file paths for persistence *)

Definition GPKG_PATH : string := "aois.gpkg".
Definition GEOJSON_PATH : string := "aois.geojson".
Definition PARQUET_PATH : string := "aois.parquet".

(** ** Exceptions and results *)

Inductive Exn : Type :=
  | FileNotFoundError (path : string)   (* [open(path, "rb")] on a missing file *)
  | DriverError (path : string)         (* a reader that cannot decode its file *)
  | OSError (path : string)             (* a writer that cannot write its file *)
  | ValueError                          (* [set_crs] on a frame in another CRS *)
  | AttributeError                      (* [st.session_state.gdf] not set *)
  | StreamlitAPIException               (* [st.map] on data without coordinates *)
  | TypeError.                          (* [to_json] on a value JSON cannot hold *)

Inductive result (A : Type) : Type :=
  | Ok (a : A)
  | Raise (e : Exn).
Arguments Ok {A} a.
Arguments Raise {A} e.

(** ** Data model *)

(** One row of the frame: the three attributes the script writes. *)
Record AOI (G : Type) : Type := mkAOI {
  name : string;
  timestamp : Z;      (* [datetime.datetime.utcnow()], as a clock reading *)
  geometry : G;
}.
Arguments mkAOI {G} _ _ _.
Arguments name {G} _.
Arguments timestamp {G} _.
Arguments geometry {G} _.

(** A GeoDataFrame: its column labels, the CRS of its geometry column (an
    EPSG code, when set) and its rows in index order. *)
Record GeoDataFrame (G : Type) : Type := mkGDF {
  columns : list string;
  crs : option Z;
  rows : list (AOI G);
}.
Arguments mkGDF {G} _ _ _.
Arguments columns {G} _.
Arguments crs {G} _.
Arguments rows {G} _.

(** ** Library interfaces *)

(** shapely: [shape] builds a geometry from a GeoJSON geometry mapping;
    [is_empty] and [is_valid] are its two predicates. *)
Class Shapely (J G : Type) : Type := {
  shape : J → G;
  is_empty : G → bool;
  is_valid : G → bool;
}.

Inductive Driver : Type := GPKG | GeoJSON.

(** geopandas: the readers decode the content of a file (or raise), the
    writers produce the content of the file they overwrite, [to_json] renders
    the frame as a GeoJSON string (or raises, on a column it cannot
    render). *)
Class GeoPandas (G F : Type) : Type := {
  read_file : F → result (GeoDataFrame G);
  read_parquet : F → result (GeoDataFrame G);
  to_file : Driver → GeoDataFrame G → F;
  to_parquet : GeoDataFrame G → F;
  to_json : GeoDataFrame G → result string;
}.

(** ** What the page shows and what the user does *)

(** The map handed to [st_folium]. Coordinates are in thousandths of a
    degree. *)
Record LeafletMap : Type := mkMap {
  location : Z * Z;
  zoom_start : Z;
  tiles : string;
  draw_options : list (string * bool);
  edit_options : list (string * bool);
  returned_objects : list string;
}.

Definition leaflet_map : LeafletMap :=
  {| location := (52520, 13405)%Z;
     zoom_start := 5;
     tiles := "cartodbdark_matter";
     draw_options := [("polyline", false); ("circle", false);
                      ("circlemarker", false); ("marker", false)];
     edit_options := [("edit", false)];
     returned_objects := ["all_drawings"] |}.

Inductive Snippet : Type := ResponsiveMapCss | LeafletResizeJs.

Inductive Payload (F : Type) : Type :=
  | Text (s : string)
  | Bytes (b : F).
Arguments Text {F} s.
Arguments Bytes {F} b.

Inductive Element (J G F : Type) : Type :=
  | Title (s : string)
  | Markdown (c : Snippet)
  | Html (c : Snippet)
  | StFolium (m : LeafletMap)
  | Subheader (s : string)
  | ExpanderJson (label : string) (j : J)
  | Error (s : string)
  | Info (s : string)
  | Success (s : string)
  | TextInput (label value : string)
  | Button (label : string)
  | Dataframe (cols : list string) (cells : list (string * Z))
  | Map (points : nat)
  | DownloadButton (label : string) (data : Payload F) (file_name mime : string)
  | Caption (s : string).
Arguments Title {J G F} s.
Arguments Markdown {J G F} c.
Arguments Html {J G F} c.
Arguments StFolium {J G F} m.
Arguments Subheader {J G F} s.
Arguments ExpanderJson {J G F} label j.
Arguments Error {J G F} s.
Arguments Info {J G F} s.
Arguments Success {J G F} s.
Arguments TextInput {J G F} label value.
Arguments Button {J G F} label.
Arguments Dataframe {J G F} cols cells.
Arguments Map {J G F} points.
Arguments DownloadButton {J G F} label data file_name mime.
Arguments Caption {J G F} s.

(** Effects of one execution, in the order they happen. *)
Inductive Event (J G F : Type) : Type :=
  | Render (e : Element J G F)
  | SessionAssign (gdf : GeoDataFrame G)     (* [st.session_state.gdf = gdf] *)
  | FileWrite (path : string) (data : F).
Arguments Render {J G F} e.
Arguments SessionAssign {J G F} gdf.
Arguments FileWrite {J G F} path data.

(** A drawn shape as the map reports it: a GeoJSON feature, of which the
    script reads the ["geometry"] entry. *)
Record Feature (J : Type) : Type := mkFeature { feature_geometry : J }.
Arguments mkFeature {J} _.
Arguments feature_geometry {J} _.

(** The dictionary [st_folium] returns, restricted to its one requested key. *)
Record FoliumOutput (J : Type) : Type := mkOutput {
  all_drawings : option (list (Feature J));
}.
Arguments mkOutput {J} _.
Arguments all_drawings {J} _.

(** What one execution reads from its environment: the widget values, the
    clock, and which paths can be written.  A write to a path that cannot be
    written raises before it touches the file. *)
Record Inputs (J : Type) : Type := mkInputs {
  output : option (FoliumOutput J);
  typed_name : option string;     (* the text box, [None] while left untouched *)
  save_clicked : bool;
  utcnow : Z;
  writable : string → bool;
}.
Arguments mkInputs {J} _ _ _ _ _.
Arguments output {J} _.
Arguments typed_name {J} _.
Arguments save_clicked {J} _.
Arguments utcnow {J} _.
Arguments writable {J} _.

(** What survives an execution. *)
Record World (G F : Type) : Type := mkWorld {
  session_gdf : option (GeoDataFrame G);     (* ["gdf" in st.session_state] *)
  disk : gmap string F;
}.
Arguments mkWorld {G F} _ _.
Arguments session_gdf {G F} _.
Arguments disk {G F} _.

Declare Scope script_scope.
Delimit Scope script_scope with script.

Section Script.
Context {J G F : Type} `{!Shapely J G} `{!GeoPandas G F}.

#[local] Abbreviation GDF := (GeoDataFrame G).
#[local] Abbreviation Ev := (Event J G F).
#[local] Abbreviation W := (World G F).

(** *** The script monad: state, event log and exceptions *)

Definition Script (A : Type) : Type := W * list Ev → (W * list Ev) * result A.

Definition ret {A : Type} (a : A) : Script A := λ s, (s, Ok a).
Definition bind {A B : Type} (m : Script A) (f : A → Script B) : Script B := λ s,
  match m s with
  | (s', Ok a) => f a s'
  | (s', Raise e) => (s', Raise e)
  end.

#[local] Notation "x ← y ; z" := (bind y (λ x, z))
  (at level 20, y at level 100, z at level 200, only parsing) : script_scope.
#[local] Notation "y ;; z" := (bind y (λ _, z))
  (at level 100, z at level 200, only parsing, right associativity) : script_scope.
#[local] Open Scope script_scope.

Definition raise {A : Type} (e : Exn) : Script A := λ s, (s, Raise e).
Definition lift {A : Type} (r : result A) : Script A := λ s, (s, r).
Definition emit (ev : Ev) : Script unit := λ s, ((s.1, s.2 ++ [ev]), Ok ()).
Definition st (e : Element J G F) : Script unit := emit (Render e).
Definition get_disk : Script (gmap string F) := λ s, (s, Ok (disk s.1)).
Definition has_session_gdf : Script bool :=
  λ s, (s, Ok (if session_gdf s.1 is Some _ then true else false)).
Definition get_session_gdf : Script GDF := λ s,
  match session_gdf s.1 with
  | Some gdf => (s, Ok gdf)
  | None => (s, Raise AttributeError)
  end.
Definition set_session_gdf (gdf : GDF) : Script unit := λ s,
  ((mkWorld (Some gdf) (disk s.1), s.2 ++ [SessionAssign gdf]), Ok ()).

(** [open(path, "rb").read()] *)
Definition read_bytes (path : string) : Script F := λ s,
  match disk s.1 !! path with
  | Some f => (s, Ok f)
  | None => (s, Raise (FileNotFoundError path))
  end.

(** A writer overwrites the whole file at [path] with [data]. *)
Definition write_bytes (can_write : string → bool) (path : string) (data : F)
    : Script unit := λ s,
  if can_write path
  then ((mkWorld (session_gdf s.1) (<[path := data]> (disk s.1)),
         s.2 ++ [FileWrite path data]), Ok ())
  else (s, Raise (OSError path)).

(** *** Load or initialize GeoDataFrame *)

Definition os_path_exists (fs : gmap string F) (path : string) : bool :=
  if fs !! path is Some _ then true else false.

Definition gpd_read_file (fs : gmap string F) (path : string) : result GDF :=
  match fs !! path with
  | Some f => read_file f
  | None => Raise (DriverError path)
  end.

Definition gpd_read_parquet (fs : gmap string F) (path : string) : result GDF :=
  match fs !! path with
  | Some f => read_parquet f
  | None => Raise (FileNotFoundError path)
  end.

Definition schema : list string := ["name"; "timestamp"; "geometry"].

(** empty GeoDataFrame with proper schema *)
Definition empty_gdf : GDF := {| columns := schema; crs := Some 4326%Z; rows := [] |}.

Definition load_gdf (fs : gmap string F) : result GDF :=
  if os_path_exists fs GPKG_PATH then gpd_read_file fs GPKG_PATH
  else if os_path_exists fs GEOJSON_PATH then gpd_read_file fs GEOJSON_PATH
  else if os_path_exists fs PARQUET_PATH then gpd_read_parquet fs PARQUET_PATH
  else Ok empty_gdf.

Definition init_session : Script unit :=
  present ← has_session_gdf;
  if present then ret ()
  else
    fs ← get_disk;
    gdf ← lift (load_gdf fs);
    set_session_gdf gdf.

(** *** Frame operations used by the script *)

(** [len(gdf)] *)
Definition len (gdf : GDF) : nat := length (rows gdf).

(** [gdf.append(new_record, ignore_index=True)]: a new frame with the row
    added at the end; labels of the record that the frame lacks become new
    columns.  The geometry column is rebuilt from the old values and the new
    one, and comes out without CRS. *)
Definition gdf_append (gdf : GDF) (new_record : AOI G) : GDF :=
  {| columns := columns gdf ++ filter (λ c, c ∉ columns gdf) schema;
     crs := None;
     rows := rows gdf ++ [new_record] |}.

(** [gdf.set_crs(epsg=..., inplace=True)]: sets the CRS of a frame that has
    none, accepts the same CRS, refuses another one. *)
Definition set_crs (epsg : Z) (gdf : GDF) : result GDF :=
  match crs gdf with
  | None => Ok {| columns := columns gdf; crs := Some epsg; rows := rows gdf |}
  | Some c => if decide (c = epsg) then Ok gdf else Raise ValueError
  end.

(** [gdf.empty] *)
Definition gdf_empty (gdf : GDF) : bool :=
  match rows gdf, columns gdf with
  | [], _ | _, [] => true
  | _, _ => false
  end.

(** [gdf.drop(columns="geometry")] *)
Definition drop_geometry (gdf : GDF) : list string * list (string * Z) :=
  (filter (λ c, c ≠ "geometry") (columns gdf),
   (λ r, (name r, timestamp r)) <$> rows gdf).

(** [st.map(data)]: plots one point per row from a latitude and a longitude
    column, which it finds by their names; data without such columns is
    refused. *)
Definition LATITUDE_NAMES : list string := ["lat"; "latitude"; "LAT"; "LATITUDE"].
Definition LONGITUDE_NAMES : list string := ["lon"; "longitude"; "LON"; "LONGITUDE"].

Definition has_column (names : list string) (gdf : GDF) : bool :=
  existsb (λ c, bool_decide (c ∈ names)) (columns gdf).

Definition has_coordinates (gdf : GDF) : bool :=
  has_column LATITUDE_NAMES gdf && has_column LONGITUDE_NAMES gdf.

Definition st_map (gdf : GDF) : Script unit :=
  if has_coordinates gdf then st (Map (len gdf))
  else raise StreamlitAPIException.

(** *** Widgets *)

(** [st.text_input(label, value=default)]: shows the box and returns its
    content, the default unless the user typed something else. *)
Definition text_input (inp : Inputs J) (label value : string) : Script string :=
  st (TextInput label value);;
  ret (default value (typed_name inp)).

(** [st.button(label)]: shows the button and tells whether it was clicked. *)
Definition button (inp : Inputs J) (label : string) : Script bool :=
  st (Button label);;
  ret (save_clicked inp).

(** *** Handle new drawing: validate and save *)

Definition msg_empty : string :=
  "❌ Geometry is empty. Please draw a valid polygon.".
Definition msg_invalid : string :=
  "❌ Geometry is invalid. Please simplify or redraw and avoid self intersections and holes.".
Definition msg_info : string :=
  "Use the drawing tool (upper left) to sketch your Area of Interest.".

(** [output and output.get("all_drawings")], when truthy: the non-empty list
    of drawings. *)
Definition drawings (inp : Inputs J) : option (list (Feature J)) :=
  match output inp with
  | Some out =>
      match all_drawings out with
      | Some (d :: ds) => Some (d :: ds)
      | Some [] | None => None
      end
  | None => None
  end.

Definition handle_drawing (inp : Inputs J) : Script unit :=
  match drawings inp ≫= last with
  | Some last_draw =>
      let geom := shape (feature_geometry last_draw) in
      st (Subheader "📝 Current Geometry");;
      st (ExpanderJson "GeoJSON" (feature_geometry last_draw));;
      (* Rudimentary validity checks *)
      if is_empty geom then
        st (Error msg_empty)
      else if negb (is_valid geom) then
        st (Error msg_invalid)
      else
        gdf ← get_session_gdf;
        let default_name := "AOI " +:+ pretty (len gdf + 1) in
        name ← text_input inp "Give this AOI a name" default_name;
        clicked ← button inp "💾 Save AOI";
        if clicked then
          (* Append to GeoDataFrame *)
          let new_record :=
            {| name := name; timestamp := utcnow inp; geometry := geom |} in
          gdf ← get_session_gdf;
          let gdf := gdf_append gdf new_record in
          gdf ← lift (set_crs 4326 gdf);
          set_session_gdf gdf;;
          (* Persist to disk in three formats *)
          write_bytes (writable inp) GPKG_PATH (to_file GPKG gdf);;
          write_bytes (writable inp) GEOJSON_PATH (to_file GeoJSON gdf);;
          write_bytes (writable inp) PARQUET_PATH (to_parquet gdf);;
          st (Success ("✅ Saved AOI '" +:+ name +:+ "' to files."))
        else ret ()
  | None =>
      st (Info msg_info)
  end.

(** *** Display and download saved AOIs *)

Definition viewer : Script unit :=
  gdf ← get_session_gdf;
  if negb (gdf_empty gdf) then
    st (Subheader "📦 Saved AOIs");;
    (* Table of attributes (excluding geometry for clarity) *)
    st (Dataframe (drop_geometry gdf).1 (drop_geometry gdf).2);;
    (* Quick map preview *)
    st_map gdf;;
    (* Download buttons *)
    geojson_str ← lift (to_json gdf);
    st (DownloadButton "⬇️ Download GeoJSON" (Text geojson_str)
          "aois.geojson" "application/geo+json");;
    gpkg_bytes ← read_bytes GPKG_PATH;
    st (DownloadButton "⬇️ Download GeoPackage" (Bytes gpkg_bytes)
          "aois.gpkg" "application/geopackage+sqlite3");;
    pq_bytes ← read_bytes PARQUET_PATH;
    st (DownloadButton "⬇️ Download Parquet" (Bytes pq_bytes)
          "aois.parquet" "application/octet-stream")
  else ret ().

(** *** The whole script, top to bottom *)

Definition script (inp : Inputs J) : Script unit :=
  init_session;;
  st (Title "🗺️  Draw Your Area of Interest (v2.1)");;
  st (Markdown ResponsiveMapCss);;
  st (Html LeafletResizeJs);;
  st (StFolium leaflet_map);;
  handle_drawing inp;;
  viewer;;
  st (Caption "Built with ❤️ & neon vibes (front end only) at YourTechStartup").

(** One execution of the script: the state it leaves, the events it caused
    and the exception that ended it, if any. *)
Record Outcome : Type := mkOutcome {
  final : W;
  events : list Ev;
  raised : option Exn;
}.

Definition outcome_of {A : Type} (r : (W * list Ev) * result A) : Outcome :=
  {| final := r.1.1;
     events := r.1.2;
     raised := match r.2 with Ok _ => None | Raise e => Some e end |}.

Definition run (inp : Inputs J) (w : W) : Outcome := outcome_of (script inp (w, [])).

(** A session: the script executed once per interaction. *)
Definition run_many (inps : list (Inputs J)) (w : W) : W :=
  foldl (λ w inp, final (run inp w)) w inps.

End Script.

Arguments Script : clear implicits.

Notation "x ← y ; z" := (bind y (λ x, z))
  (at level 20, y at level 100, z at level 200, only parsing) : script_scope.
Notation "y ;; z" := (bind y (λ _, z))
  (at level 100, z at level 200, only parsing, right associativity) : script_scope.

(** ** Observations on an execution *)

(** The outcomes of the validity checks, as the page shows them: each
    rejection has its own error message, and the name box with the save
    button appears only for an accepted geometry. *)
Inductive Verdict : Type := IsEmpty | SelfInvalid | Valid.

Section Observations.
Context {J G F : Type}.

#[local] Abbreviation Ev := (Event J G F).

Definition page (evs : list Ev) : list (Element J G F) :=
  omap (λ ev, if ev is Render e then Some e else None) evs.

Definition verdict_of (e : Element J G F) : option Verdict :=
  match e with
  | Error s =>
      if String.eqb s msg_empty then Some IsEmpty
      else if String.eqb s msg_invalid then Some SelfInvalid
      else None
  | TextInput _ _ => Some Valid
  | _ => None
  end.

Definition verdicts (evs : list Ev) : list Verdict := omap verdict_of (page evs).

(** Default values offered in a name box. *)
Definition offered_names (evs : list Ev) : list string :=
  omap (λ e, if e is TextInput _ value then Some value else None) (page evs).

(** Tables and download payloads put on the page. *)
Definition tables (evs : list Ev) : list (list string * list (string * Z)) :=
  omap (λ e, if e is Dataframe cols cells then Some (cols, cells) else None) (page evs).

Definition downloads (evs : list Ev) : list (string * Payload F) :=
  omap (λ e, if e is DownloadButton _ data file_name _ then Some (file_name, data) else None)
       (page evs).

Definition successes (evs : list Ev) : list string :=
  omap (λ e, if e is Success s then Some s else None) (page evs).

(** Elements that only display the collection. *)
Definition is_display (e : Element J G F) : bool :=
  match e with
  | Subheader _ | Dataframe _ _ | Map _ | DownloadButton _ _ _ _ | Caption _ => true
  | _ => false
  end.

(** Changes of state: everything that is not rendering. *)
Definition effects (evs : list Ev) : list Ev :=
  omap (λ ev, if ev is Render _ then None else Some ev) evs.

Definition file_writes (evs : list Ev) : list (string * F) :=
  omap (λ ev, if ev is FileWrite path data then Some (path, data) else None) evs.

Definition assignments (evs : list Ev) : list (GeoDataFrame G) :=
  omap (λ ev, if ev is SessionAssign gdf then Some gdf else None) evs.

End Observations.

(** ** The session as a transition system *)

Section Session.
Context {J G F : Type} `{!Shapely J G} `{!GeoPandas G F}.

(** The worlds a session can be in when its process started on the disk
    [fs0] with nothing in the session. *)
Inductive reachable (fs0 : gmap string F) : World G F → Prop :=
  | reachable_start : reachable fs0 (mkWorld None fs0)
  | reachable_step w inp : reachable fs0 w → reachable fs0 (final (run inp w)).

(** The outcomes of the executions of a session, in order. *)
Fixpoint outcomes (inps : list (Inputs J)) (w : World G F) : list Outcome :=
  match inps with
  | [] => []
  | inp :: inps => run inp w :: outcomes inps (final (run inp w))
  end.

(** The collection invariant of the data model. *)
Definition record_ok (r : AOI G) : bool :=
  negb (is_empty (geometry r)) && is_valid (geometry r).

Definition collection_ok (gdf : GeoDataFrame G) : bool :=
  bool_decide (crs gdf = Some 4326%Z) && forallb record_ok (rows gdf).

Definition invariant (w : World G F) : Prop :=
  ∀ gdf, session_gdf w = Some gdf → collection_ok gdf = true.

(** The record an execution added to the collection, read off its
    assignments to the session: the last row of the assigned frame. *)
Definition appended (o : @Outcome J G F) : list (AOI G) :=
  omap (λ gdf, last (rows gdf)) (assignments (events o)).

(** A successful save: the execution reached the confirmation. *)
Definition saved (o : @Outcome J G F) : bool :=
  if successes (events o) is [] then false else true.

(** The three sequential writes of a save, in order. *)
Definition targets : list (string * (GeoDataFrame G → F)) :=
  [(GPKG_PATH, to_file GPKG); (GEOJSON_PATH, to_file GeoJSON); (PARQUET_PATH, to_parquet)].

(** The inputs [inp] with the map reporting the drawings [ds]. *)
Definition with_drawings (inp : Inputs J) (ds : list (Feature J)) : Inputs J :=
  {| output := Some (mkOutput (Some ds));
     typed_name := typed_name inp;
     save_clicked := save_clicked inp;
     utcnow := utcnow inp;
     writable := writable inp |}.

(** The record a save builds from the inputs, the frame of the session and
    the validated geometry; its name is the content of the name box. *)
Definition default_name (gdf : GeoDataFrame G) : string :=
  "AOI " +:+ pretty (len gdf + 1).

Definition new_record (inp : Inputs J) (gdf : GeoDataFrame G) (geom : G) : AOI G :=
  {| name := default (default_name gdf) (typed_name inp);
     timestamp := utcnow inp;
     geometry := geom |}.

(** The frame a save assigns to the session: the record appended, in
    EPSG:4326. *)
Definition saved_frame (gdf : GeoDataFrame G) (r : AOI G) : GeoDataFrame G :=
  {| columns := columns (gdf_append gdf r);
     crs := Some 4326%Z;
     rows := rows gdf ++ [r] |}.

Definition all_writable (inp : Inputs J) : bool :=
  writable inp GPKG_PATH && writable inp GEOJSON_PATH && writable inp PARQUET_PATH.

(** The disk after the writes of the targets [ts], and the events they cause. *)
Definition written (gdf : GeoDataFrame G) (ts : list (string * (GeoDataFrame G → F)))
    (fs : gmap string F) : gmap string F :=
  foldl (λ fs t, <[t.1 := t.2 gdf]> fs) fs ts.

Definition writes (gdf : GeoDataFrame G) (ts : list (string * (GeoDataFrame G → F)))
    : list (Event J G F) :=
  (λ t, FileWrite t.1 (t.2 gdf)) <$> ts.

(** A computation that never looks at the events recorded so far. *)
Definition prefix_independent {A : Type} (m : Script J G F A) : Prop :=
  ∀ w pre evs,
    m (w, pre ++ evs) = (((m (w, evs)).1.1, pre ++ (m (w, evs)).1.2), (m (w, evs)).2).

(** The script after the initialisation of the session. *)
Definition page_body (inp : Inputs J) : Script J G F unit :=
  (st (Title "🗺️  Draw Your Area of Interest (v2.1)");;
   st (Markdown ResponsiveMapCss);;
   st (Html LeafletResizeJs);;
   st (StFolium leaflet_map);;
   handle_drawing inp;;
   viewer;;
   st (Caption "Built with ❤️ & neon vibes (front end only) at YourTechStartup"))%script.

(** The end of every execution: the viewer and the caption. *)
Definition display : Script J G F unit :=
  (viewer;;
   st (Caption "Built with ❤️ & neon vibes (front end only) at YourTechStartup"))%script.

(** What every execution renders before it looks at the drawings. *)
Definition header : list (Event J G F) :=
  [Render (Title "🗺️  Draw Your Area of Interest (v2.1)");
   Render (Markdown ResponsiveMapCss);
   Render (Html LeafletResizeJs);
   Render (StFolium leaflet_map)].

(** What the handler renders for every drawing, before the checks. *)
Definition current_geometry (d : Feature J) : list (Event J G F) :=
  [Render (Subheader "📝 Current Geometry");
   Render (ExpanderJson "GeoJSON" (feature_geometry d))].

(** What the handler renders for an accepted geometry. *)
Definition asking (gdf : GeoDataFrame G) : list (Event J G F) :=
  [Render (TextInput "Give this AOI a name" (default_name gdf));
   Render (Button "💾 Save AOI")].

(** The end of a save, after the assignment to the session: the three
    writes and the confirmation. *)
Definition persist (inp : Inputs J) (name : string) (gdf : GeoDataFrame G)
    : Script J G F unit :=
  (write_bytes (writable inp) GPKG_PATH (to_file GPKG gdf);;
   write_bytes (writable inp) GEOJSON_PATH (to_file GeoJSON gdf);;
   write_bytes (writable inp) PARQUET_PATH (to_parquet gdf);;
   st (Success ("✅ Saved AOI '" +:+ name +:+ "' to files.")))%script.

(** What the viewer shows of a collection before the map, and, with the
    map and the GeoJSON string [geojson_str], before it opens a file. *)
Definition table_view (gdf : GeoDataFrame G) : list (Event J G F) :=
  [Render (Subheader "📦 Saved AOIs");
   Render (Dataframe (drop_geometry gdf).1 (drop_geometry gdf).2)].

Definition collection_view (gdf : GeoDataFrame G) (geojson_str : string)
    : list (Event J G F) :=
  table_view gdf ++
  [Render (Map (len gdf));
   Render (DownloadButton "⬇️ Download GeoJSON" (Text geojson_str)
             "aois.geojson" "application/geo+json")].

Definition file_download (label file mime : string) (data : F) : Event J G F :=
  Render (DownloadButton label (Bytes data) file mime).

(** The viewer on its own, on a session holding [gdf] and a disk [fs]. *)
Definition render_viewer (gdf : GeoDataFrame G) (fs : gmap string F) : @Outcome J G F :=
  outcome_of (viewer (mkWorld (Some gdf) fs, [])).

End Session.

(** ** Further observations *)

Section MoreObservations.
Context {J G F : Type} `{!Shapely J G} `{!GeoPandas G F}.

(** The hints and the captions put on the page. *)
Definition infos (evs : list (Event J G F)) : list string :=
  omap (λ e, if e is Info s then Some s else None) (page evs).

(** The geometries shown in the inspector. *)
Definition inspected (evs : list (Event J G F)) : list J :=
  omap (λ e, if e is ExpanderJson _ j then Some j else None) (page evs).

Definition captions (evs : list (Event J G F)) : list string :=
  omap (λ e, if e is Caption s then Some s else None) (page evs).

Definition caption_text : string :=
  "Built with ❤️ & neon vibes (front end only) at YourTechStartup".

Definition caption : Event J G F := Render (Caption caption_text).

(** Inputs with which the handler cannot reach the save: no drawing, no
    click, or a geometry that one of the checks rejects. *)
Definition no_save (inp : Inputs J) : Prop :=
  match drawings inp ≫= last with
  | None => True
  | Some d =>
      save_clicked inp = false ∨
      is_empty (shape (feature_geometry d)) = true ∨
      is_valid (shape (feature_geometry d)) = false
  end.

#[export] Instance no_save_dec (inp : Inputs J) : Decision (no_save inp).
Proof. unfold no_save. destruct (drawings inp ≫= last); apply _. Defined.

(** The confirmation of a save under the name [nm]. *)
Definition confirmation (nm : string) : string := "✅ Saved AOI '" +:+ nm +:+ "' to files.".

End MoreObservations.

(** ** A planar instance of the library interfaces

    Polygons are exterior rings with integer coordinates, given as GeoJSON
    gives them (the first vertex repeated at the end).  A ring is valid when
    it is closed, has at least three edges and no two of its edges meet,
    except neighbours at their common vertex.  Files hold the frame they
    were written from, tagged with their format; [to_json] cannot render
    the timestamp of a row. *)

Module Planar.

Definition Point : Type := Z * Z.
Definition Ring : Type := list Point.

(** Sign of the turn [p], [q], [r]. *)
Definition orient (p q r : Point) : Z :=
  Z.sgn ((q.1 - p.1) * (r.2 - p.2) - (q.2 - p.2) * (r.1 - p.1)).

(** [r] lies in the bounding box of the segment [p], [q]. *)
Definition in_box (p q r : Point) : bool :=
  (Z.min p.1 q.1 <=? r.1)%Z && (r.1 <=? Z.max p.1 q.1)%Z &&
  (Z.min p.2 q.2 <=? r.2)%Z && (r.2 <=? Z.max p.2 q.2)%Z.

(** The closed segments [a b] and [c d] have a common point. *)
Definition segments_meet (a b c d : Point) : bool :=
  let o1 := orient a b c in
  let o2 := orient a b d in
  let o3 := orient c d a in
  let o4 := orient c d b in
  (negb (o1 =? o2)%Z && negb (o3 =? o4)%Z)
  || ((o1 =? 0)%Z && in_box a b c)
  || ((o2 =? 0)%Z && in_box a b d)
  || ((o3 =? 0)%Z && in_box c d a)
  || ((o4 =? 0)%Z && in_box c d b).

Definition edges (r : Ring) : list (Point * Point) := zip r (tail r).

Definition point_eqb (p q : Point) : bool := (p.1 =? q.1)%Z && (p.2 =? q.2)%Z.

(** Edges [i < j] of a ring of [n] edges are neighbours when they follow each
    other, also around the closing vertex. *)
Definition neighbours (n i j : nat) : bool :=
  (j =? i + 1)%nat || ((i =? 0)%nat && (j =? n - 1)%nat).

Definition edge_ok (n : nat) (ie je : nat * (Point * Point)) : bool :=
  let '(i, (a, b)) := ie in
  let '(j, (c, d)) := je in
  if (j <=? i)%nat then true
  else if neighbours n i j then negb (point_eqb a b) && negb (point_eqb c d)
  else negb (segments_meet a b c d).

Definition simple (r : Ring) : bool :=
  let es := imap pair (edges r) in
  forallb (λ ie, forallb (edge_ok (length es) ie) es) es.

Definition closed (r : Ring) : bool :=
  match r, last r with
  | p :: _, Some q => point_eqb p q
  | _, _ => false
  end.

Definition ring_is_empty (r : Ring) : bool := if r is [] then true else false.

Definition ring_is_valid (r : Ring) : bool :=
  ring_is_empty r || (closed r && (4 <=? length r)%nat && simple r).

#[export] Instance shapely : Shapely Ring Ring :=
  {| shape := id; is_empty := ring_is_empty; is_valid := ring_is_valid |}.

Inductive FileData : Type :=
  | GpkgFile (gdf : GeoDataFrame Ring)
  | GeoJsonFile (gdf : GeoDataFrame Ring)
  | ParquetFile (gdf : GeoDataFrame Ring)
  | Corrupt.

Definition show_point (p : Point) : string :=
  "[" +:+ pretty p.1 +:+ "," +:+ pretty p.2 +:+ "]".

Definition show_record (r : AOI Ring) : string :=
  name r +:+ "@" +:+ pretty (timestamp r) +:+ ":"
    +:+ String.concat "," (show_point <$> geometry r).

Definition show_frame (gdf : GeoDataFrame Ring) : string :=
  "FeatureCollection(" +:+ String.concat ";" (show_record <$> rows gdf) +:+ ")".

#[export] Instance geopandas : GeoPandas Ring FileData :=
  {| read_file f :=
       match f with
       | GpkgFile gdf | GeoJsonFile gdf => Ok gdf
       | ParquetFile _ | Corrupt => Raise (DriverError "")
       end;
     read_parquet f :=
       match f with
       | ParquetFile gdf => Ok gdf
       | _ => Raise (DriverError "")
       end;
     to_file driver gdf :=
       match driver with GPKG => GpkgFile gdf | GeoJSON => GeoJsonFile gdf end;
     to_parquet gdf := ParquetFile gdf;
     to_json gdf :=
       if rows gdf is [] then Ok (show_frame gdf) else Raise TypeError |}.

(** Sample drawings and worlds. *)
Definition square : Ring := [(0, 0); (10, 0); (10, 10); (0, 10); (0, 0)]%Z.
Definition triangle : Ring := [(20, 0); (30, 0); (25, 8); (20, 0)]%Z.
Definition bowtie : Ring := [(0, 0); (10, 10); (10, 0); (0, 10); (0, 0)]%Z.

Definition always (p : string) : bool := true.

Definition draw (ds : list Ring) (typed : option string) (click : bool) (now : Z)
    (can_write : string → bool) : Inputs Ring :=
  {| output := Some (mkOutput (Some (mkFeature <$> ds)));
     typed_name := typed;
     save_clicked := click;
     utcnow := now;
     writable := can_write |}.

Definition idle : Inputs Ring :=
  {| output := None; typed_name := None; save_clicked := false; utcnow := 0;
     writable := always |}.

Definition frame (rs : list (AOI Ring)) : GeoDataFrame Ring :=
  {| columns := ["name"; "timestamp"; "geometry"]; crs := Some 4326%Z; rows := rs |}.

Definition no_files : gmap string FileData := ∅.

Definition all_files (gdf : GeoDataFrame Ring) : gmap string FileData :=
  <[PARQUET_PATH := ParquetFile gdf]>
    (<[GEOJSON_PATH := GeoJsonFile gdf]> (<[GPKG_PATH := GpkgFile gdf]> ∅)).

Definition only_geojson (gdf : GeoDataFrame Ring) : gmap string FileData :=
  <[GEOJSON_PATH := GeoJsonFile gdf]> ∅.

(** Every path can be written but [path]. *)
Definition all_but (path : string) (p : string) : bool := negb (String.eqb p path).

Definition park : AOI Ring := mkAOI "Park" 100 square.
Definition lake : AOI Ring := mkAOI "Lake" 200 triangle.
Definition knot : AOI Ring := mkAOI "Knot" 300 bowtie.

End Planar.

(** ** Properties of the script *)

Section Properties.
Context {J G F : Type} `{!Shapely J G} `{!GeoPandas G F}.

#[local] Abbreviation GDF := (GeoDataFrame G).
#[local] Abbreviation W := (World G F).
#[local] Abbreviation Ev := (Event J G F).
#[local] Open Scope script_scope.

(** *** Observations and concatenation *)

Lemma page_app (l k : list Ev) : page (l ++ k) = page l ++ page k.
Proof. apply omap_app. Qed.

Lemma verdicts_app (l k : list Ev) : verdicts (l ++ k) = verdicts l ++ verdicts k.
Proof. unfold verdicts. by rewrite page_app, omap_app. Qed.

Lemma offered_names_app (l k : list Ev) :
  offered_names (l ++ k) = offered_names l ++ offered_names k.
Proof. unfold offered_names. by rewrite page_app, omap_app. Qed.

Lemma successes_app (l k : list Ev) : successes (l ++ k) = successes l ++ successes k.
Proof. unfold successes. by rewrite page_app, omap_app. Qed.

Lemma effects_app (l k : list Ev) : effects (l ++ k) = effects l ++ effects k.
Proof. apply omap_app. Qed.

Lemma assignments_app (l k : list Ev) :
  assignments (l ++ k) = assignments l ++ assignments k.
Proof. apply omap_app. Qed.

Lemma file_writes_app (l k : list Ev) :
  file_writes (l ++ k) = file_writes l ++ file_writes k.
Proof. apply omap_app. Qed.

(** Displaying the collection changes no state and shows neither a verdict
    nor a confirmation. *)
Lemma display_silent (es : list (Element J G F)) :
  forallb is_display es = true →
  verdicts (Render <$> es : list Ev) = [] ∧
  offered_names (Render <$> es : list Ev) = [] ∧
  successes (Render <$> es : list Ev) = [] ∧
  effects (Render <$> es : list Ev) = [] ∧
  assignments (Render <$> es : list Ev) = [] ∧
  file_writes (Render <$> es : list Ev) = [].
Proof.
  induction es as [|e es IH]; [done|]. simpl.
  intros [He Hes]%andb_prop. destruct (IH Hes) as (?&?&?&?&?&?).
  unfold verdicts, offered_names, successes in *. simpl in *.
  destruct e; try done.
Qed.

Create Rewrite HintDb observe.
Lemma effects_nil (l : list Ev) :
  effects l = [] → assignments l = [] ∧ file_writes l = [].
Proof. induction l as [|[] l IH]; simpl; try done. Qed.

#[local] Hint Rewrite verdicts_app offered_names_app successes_app effects_app
  assignments_app file_writes_app : observe.

(** *** The phases of one execution *)

Lemma bind_ok {A B : Type} (m : Script J G F A) (f : A → Script J G F B) s s' a :
  m s = (s', Ok a) → bind m f s = f a s'.
Proof. unfold bind. by intros ->. Qed.

Lemma bind_raise {A B : Type} (m : Script J G F A) (f : A → Script J G F B) s s' e :
  m s = (s', Raise e) → bind m f s = (s', Raise e).
Proof. unfold bind. by intros ->. Qed.

(** The viewer and the caption: the world is left as it is, and only
    display elements are added. *)
Lemma display_spec (w : W) (evs : list Ev) :
  ∃ es r,
    display (w, evs) = ((w, evs ++ (Render <$> es)), r) ∧
    forallb is_display es = true.
Proof.
  unfold display, viewer, st_map, bind, st, emit, raise, lift, get_session_gdf,
    read_bytes, ret. simpl.
  destruct (session_gdf w) as [gdf|]; simpl.
  2: { exists [], (Raise AttributeError). by rewrite app_nil_r. }
  destruct (gdf_empty gdf); simpl.
  { by eexists [_], _. }
  destruct (has_coordinates gdf); simpl.
  2: { eexists [_; _], _. by rewrite <- !app_assoc. }
  destruct (to_json gdf); simpl.
  2: { eexists [_; _; _], _. by rewrite <- !app_assoc. }
  destruct (disk w !! GPKG_PATH); simpl.
  2: { eexists [_; _; _; _], _. by rewrite <- !app_assoc. }
  destruct (disk w !! PARQUET_PATH); simpl.
  2: { eexists [_; _; _; _; _], _. by rewrite <- !app_assoc. }
  eexists [_; _; _; _; _; _; _], _. by rewrite <- !app_assoc.
Qed.

(** On an initialised session the execution is the header, the handler and
    the display. *)
Lemma run_initialised (inp : Inputs J) (gdf : GDF) (fs : gmap string F) :
  run inp (mkWorld (Some gdf) fs) =
  outcome_of ((handle_drawing inp;; display) (mkWorld (Some gdf) fs, header)).
Proof. reflexivity. Qed.

(** *** The handler, case by case *)

(** The appended frame has no CRS, so [set_crs] labels it and never
    raises, whatever the CRS of the frame before. *)
Lemma set_crs_saved (gdf : GDF) (r : AOI G) :
  set_crs 4326 (gdf_append gdf r) = Ok (saved_frame gdf r).
Proof. reflexivity. Qed.

Lemma saved_frame_last (gdf : GDF) (r : AOI G) :
  last (rows (saved_frame gdf r)) = Some r.
Proof. apply last_snoc. Qed.

#[local] Arguments gdf_append : simpl never.
#[local] Arguments set_crs : simpl never.
#[local] Arguments saved_frame : simpl never.
#[local] Arguments new_record : simpl never.
#[local] Arguments pretty : simpl never.

Ltac handler_unfold :=
  unfold handle_drawing, persist, text_input, button, bind, st, emit,
    get_session_gdf, set_session_gdf, lift, ret.

Ltac events_done := cbn; rewrite <- ?app_assoc; cbn; rewrite ?app_nil_r; done.

Section Handler.
Variables (inp : Inputs J) (gdf : GDF) (fs : gmap string F) (evs : list Ev).

Lemma handle_none :
  drawings inp ≫= last = None →
  handle_drawing inp (mkWorld (Some gdf) fs, evs) =
    ((mkWorld (Some gdf) fs, evs ++ [Render (Info msg_info)]), Ok ()).
Proof. unfold handle_drawing. by intros ->. Qed.

Variable d : Feature J.
Hypothesis last_draw : drawings inp ≫= last = Some d.

Lemma handle_empty :
  is_empty (shape (feature_geometry d)) = true →
  handle_drawing inp (mkWorld (Some gdf) fs, evs) =
    ((mkWorld (Some gdf) fs, evs ++ current_geometry d ++ [Render (Error msg_empty)]),
     Ok ()).
Proof.
  intros He. handler_unfold. rewrite last_draw. cbn. rewrite He. events_done.
Qed.

Lemma handle_invalid :
  is_empty (shape (feature_geometry d)) = false →
  is_valid (shape (feature_geometry d)) = false →
  handle_drawing inp (mkWorld (Some gdf) fs, evs) =
    ((mkWorld (Some gdf) fs, evs ++ current_geometry d ++ [Render (Error msg_invalid)]),
     Ok ()).
Proof.
  intros He Hv. handler_unfold. rewrite last_draw. cbn. rewrite He, Hv. events_done.
Qed.

Hypothesis not_empty : is_empty (shape (feature_geometry d)) = false.
Hypothesis valid : is_valid (shape (feature_geometry d)) = true.

Lemma handle_no_click :
  save_clicked inp = false →
  handle_drawing inp (mkWorld (Some gdf) fs, evs) =
    ((mkWorld (Some gdf) fs, evs ++ current_geometry d ++ asking gdf), Ok ()).
Proof.
  intros Hc. handler_unfold. rewrite last_draw. cbn.
  rewrite not_empty, valid. cbn. rewrite Hc. events_done.
Qed.

Hypothesis clicked : save_clicked inp = true.

Lemma handle_save :
  let r := new_record inp gdf (shape (feature_geometry d)) in
  handle_drawing inp (mkWorld (Some gdf) fs, evs) =
    persist inp (name r) (saved_frame gdf r)
      (mkWorld (Some (saved_frame gdf r)) fs,
       evs ++ current_geometry d ++ asking gdf ++ [SessionAssign (saved_frame gdf r)]).
Proof.
  intros r. subst r. handler_unfold. rewrite last_draw. cbn.
  rewrite not_empty, valid. cbn. rewrite clicked. cbn.
  fold (default_name gdf). fold (new_record inp gdf (shape (feature_geometry d))).
  rewrite set_crs_saved. cbn. by rewrite <- ?app_assoc.
Qed.

End Handler.

(** *** The three writes *)

Ltac persist_unfold := unfold persist, write_bytes, bind, st, emit.

(** The first write that raises ends the save: the earlier writes are done,
    the later ones are not attempted. *)
Lemma persist_fails (inp : Inputs J) (nm : string) (gdf : GDF) (w : W) (evs : list Ev)
    (k : nat) (path : string) (ser : GDF → F) :
  targets !! k = Some (path, ser) →
  (∀ t, t ∈ take k targets → writable inp t.1 = true) →
  writable inp path = false →
  persist inp nm gdf (w, evs) =
    ((mkWorld (session_gdf w) (written gdf (take k targets) (disk w)),
      evs ++ writes gdf (take k targets)),
     Raise (OSError path)).
Proof.
  intros Hk Hbefore Hfail. persist_unfold.
  destruct k as [|[|[|k]]]; simplify_eq/=.
  - rewrite Hfail. rewrite app_nil_r. by destruct w.
  - rewrite (Hbefore (GPKG_PATH, to_file GPKG)) by set_solver. cbn.
    by rewrite Hfail.
  - rewrite (Hbefore (GPKG_PATH, to_file GPKG)) by set_solver. cbn.
    rewrite (Hbefore (GEOJSON_PATH, to_file GeoJSON)) by set_solver. cbn.
    rewrite Hfail. by rewrite <- app_assoc.
Qed.

Lemma persist_succeeds (inp : Inputs J) (nm : string) (gdf : GDF) (w : W) (evs : list Ev) :
  all_writable inp = true →
  persist inp nm gdf (w, evs) =
    ((mkWorld (session_gdf w) (written gdf targets (disk w)),
      evs ++ writes gdf targets ++ [Render (Success ("✅ Saved AOI '" +:+ nm +:+ "' to files."))]),
     Ok ()).
Proof.
  unfold all_writable. intros [[H1 H2]%andb_prop H3]%andb_prop.
  persist_unfold. rewrite H1. cbn. rewrite H2. cbn. rewrite H3. cbn.
  by rewrite <- !app_assoc.
Qed.

(** Some write raises, or all three succeed. *)
Lemma first_failure (inp : Inputs J) :
  all_writable inp = true ∨
  ∃ k path ser, targets !! k = Some (path, ser : GDF → F) ∧
    (∀ t, t ∈ take k (targets (G:=G) (F:=F)) → writable inp t.1 = true) ∧
    writable inp path = false.
Proof.
  unfold all_writable.
  destruct (writable inp GPKG_PATH) eqn:H1.
  2: { right. exists 0, GPKG_PATH, (to_file GPKG). split_and!; [done| |done].
       intros t Ht. by apply elem_of_nil in Ht. }
  destruct (writable inp GEOJSON_PATH) eqn:H2.
  2: { right. exists 1, GEOJSON_PATH, (to_file GeoJSON). split_and!; [done| |done].
       intros t Ht. cbn in Ht. set_unfold. by destruct Ht as [->|[]]. }
  destruct (writable inp PARQUET_PATH) eqn:H3; [by left|].
  right. exists 2, PARQUET_PATH, to_parquet. split_and!; [done| |done].
  intros t Ht. cbn in Ht. set_unfold. by destruct Ht as [->|[->|[]]].
Qed.

(** Whatever the writes do, they leave the session alone and show nothing
    but the confirmation, which appears exactly when all three succeed. *)
Lemma persist_summary (inp : Inputs J) (nm : string) (gdf : GDF) (w : W) (evs : list Ev) :
  ∃ l r w',
    persist inp nm gdf (w, evs) = ((w', evs ++ l), r) ∧
    session_gdf w' = session_gdf w ∧
    verdicts l = [] ∧ offered_names l = [] ∧ assignments l = [] ∧
    (if successes l is [] then false else true) = all_writable inp ∧
    (all_writable inp = false → ∃ p, r = Raise (OSError p)).
Proof.
  destruct (first_failure inp) as [Hall | (k & path & ser & Hk & Hbefore & Hfail)].
  - rewrite persist_succeeds by done. do 3 eexists. split; [done|].
    rewrite Hall. by split_and!.
  - rewrite (persist_fails _ _ _ _ _ k path ser) by done. do 3 eexists. split; [done|].
    assert (all_writable inp = false) as ->.
    { unfold all_writable.
      destruct k as [|[|[|k]]]; simplify_eq/=; rewrite Hfail;
        by rewrite ?andb_false_r. }
    split_and!; try done; [..|by eexists];
      by destruct k as [|[|[|k]]].
Qed.

(** *** One execution on an initialised session *)

Lemma run_after_handler (inp : Inputs J) (gdf : GDF) (fs : gmap string F)
    (w' : W) (evs' : list Ev) (r : result unit) :
  handle_drawing inp (mkWorld (Some gdf) fs, header) = ((w', evs'), r) →
  ∃ es,
    final (run inp (mkWorld (Some gdf) fs)) = w' ∧
    events (run inp (mkWorld (Some gdf) fs)) = evs' ++ (Render <$> es) ∧
    forallb is_display es = true ∧
    (∀ e, r = Raise e → raised (run inp (mkWorld (Some gdf) fs)) = Some e ∧ es = []).
Proof.
  intros Hh. rewrite run_initialised.
  destruct r as [[]|e].
  - rewrite (bind_ok _ _ _ _ _ Hh).
    destruct (display_spec w' evs') as (es & r & Hdisp & Hes).
    exists es. rewrite Hdisp. by split_and!.
  - rewrite (bind_raise _ _ _ _ _ Hh).
    exists []. unfold outcome_of. cbn. rewrite app_nil_r. split_and!; try done.
    by intros ? [= <-].
Qed.

Ltac after_handler Hh es Hes :=
  let Hf := fresh "Hfinal" in
  let He := fresh "Hevents" in
  let Hr := fresh "Hraised" in
  destruct (run_after_handler _ _ _ _ _ _ Hh) as (es & Hf & He & Hes & Hr);
  rewrite ?Hf, ?He;
  destruct (display_silent es Hes) as (?&?&?&?&?&?).

Ltac observe :=
  autorewrite with observe;
  repeat match goal with H : _ (Render <$> _) = [] |- _ => rewrite H end;
  rewrite ?app_nil_r.

(** A rejected geometry: the execution changes nothing. *)
Lemma run_rejected (inp : Inputs J) (gdf : GDF) (fs : gmap string F) (d : Feature J) :
  drawings inp ≫= last = Some d →
  is_empty (shape (feature_geometry d)) = true ∨
    is_valid (shape (feature_geometry d)) = false →
  final (run inp (mkWorld (Some gdf) fs)) = mkWorld (Some gdf) fs ∧
  effects (events (run inp (mkWorld (Some gdf) fs))) = [] ∧
  saved (run inp (mkWorld (Some gdf) fs)) = false.
Proof.
  intros Hd Hrej. unfold saved.
  destruct (is_empty (shape (feature_geometry d))) eqn:He.
  - pose proof (handle_empty inp gdf fs header d Hd He) as Hh.
    after_handler Hh es Hes. by observe.
  - destruct Hrej as [|Hv]; [done|].
    pose proof (handle_invalid inp gdf fs header d Hd He Hv) as Hh.
    after_handler Hh es Hes. by observe.
Qed.

(** Without a drawing, or without a click, nothing changes either. *)
Lemma run_idle (inp : Inputs J) (gdf : GDF) (fs : gmap string F) :
  drawings inp ≫= last = None ∨ save_clicked inp = false →
  final (run inp (mkWorld (Some gdf) fs)) = mkWorld (Some gdf) fs ∧
  effects (events (run inp (mkWorld (Some gdf) fs))) = [] ∧
  saved (run inp (mkWorld (Some gdf) fs)) = false.
Proof.
  intros Hidle.
  destruct (drawings inp ≫= last) as [d|] eqn:Hd.
  2: { pose proof (handle_none inp gdf fs header Hd) as Hh. unfold saved.
       after_handler Hh es Hes. by observe. }
  destruct Hidle as [|Hc]; [done|].
  destruct (is_empty (shape (feature_geometry d))) eqn:He;
    [apply (run_rejected _ _ _ d); auto|].
  destruct (is_valid (shape (feature_geometry d))) eqn:Hv;
    [|apply (run_rejected _ _ _ d); auto].
  pose proof (handle_no_click inp gdf fs header d Hd He Hv Hc) as Hh. unfold saved.
  after_handler Hh es Hes. by observe.
Qed.

(** An accepted geometry and a click: the session receives the frame with
    the record appended, whatever happens to the writes. *)
Lemma run_save_session (inp : Inputs J) (gdf : GDF) (fs : gmap string F)
    (d : Feature J) :
  drawings inp ≫= last = Some d →
  is_empty (shape (feature_geometry d)) = false →
  is_valid (shape (feature_geometry d)) = true →
  save_clicked inp = true →
  let gdf' := saved_frame gdf (new_record inp gdf (shape (feature_geometry d))) in
  let o := run inp (mkWorld (Some gdf) fs) in
  session_gdf (final o) = Some gdf' ∧
  assignments (events o) = [gdf'] ∧
  saved o = all_writable inp.
Proof.
  intros Hd He Hv Hc gdf' o. subst o gdf'.
  pose proof (handle_save inp gdf fs header d Hd He Hv Hc) as Hh. cbn zeta in Hh.
  destruct (persist_summary inp
    (name (new_record inp gdf (shape (feature_geometry d))))
    (saved_frame gdf (new_record inp gdf (shape (feature_geometry d))))
    (mkWorld (Some (saved_frame gdf (new_record inp gdf (shape (feature_geometry d))))) fs)
    (header ++ current_geometry d ++ asking gdf ++
       [SessionAssign (saved_frame gdf (new_record inp gdf (shape (feature_geometry d))))]))
    as (l & r & w' & Hp & Hs & Hl1 & Hl2 & Hl3 & Hl4 & Hl5).
  rewrite Hp in Hh. unfold saved.
  after_handler Hh es Hes. observe. rewrite Hl3. rewrite Hs.
  split_and!; try done.
Qed.

(** An accepted geometry: the page asks for a name, once, whatever follows. *)
Lemma run_accepted (inp : Inputs J) (gdf : GDF) (fs : gmap string F) (d : Feature J) :
  drawings inp ≫= last = Some d →
  is_empty (shape (feature_geometry d)) = false →
  is_valid (shape (feature_geometry d)) = true →
  ∃ l, events (run inp (mkWorld (Some gdf) fs)) =
         header ++ current_geometry d ++ asking gdf ++ l ∧
       verdicts l = [] ∧ offered_names l = [].
Proof.
  intros Hd He Hv.
  destruct (save_clicked inp) eqn:Hc.
  2: { pose proof (handle_no_click inp gdf fs header d Hd He Hv Hc) as Hh.
       after_handler Hh es Hes. exists (Render <$> es).
       by rewrite <- !app_assoc. }
  pose proof (handle_save inp gdf fs header d Hd He Hv Hc) as Hh. cbn zeta in Hh.
  match type of Hh with _ = persist ?i ?n ?g (?w, ?e) =>
    destruct (persist_summary i n g w e) as (l & r & w' & Hp & _ & Hl1 & Hl2 & _)
  end.
  rewrite Hp in Hh. after_handler Hh es Hes.
  exists (SessionAssign (saved_frame gdf (new_record inp gdf (shape (feature_geometry d))))
            :: l ++ (Render <$> es)).
  rewrite <- !app_assoc. split; [done|]. split.
  - change (verdicts (l ++ (Render <$> es)) = []). by observe.
  - change (offered_names (l ++ (Render <$> es)) = []). by observe.
Qed.

Lemma display_empty (w : W) (evs : list Ev) (gdf : GDF) :
  session_gdf w = Some gdf → gdf_empty gdf = true →
  display (w, evs) =
    ((w, evs ++ [Render (Caption
       "Built with ❤️ & neon vibes (front end only) at YourTechStartup")]), Ok ()).
Proof.
  intros Hs He.
  unfold display, viewer, bind, st, emit, get_session_gdf, read_bytes, ret. cbn.
  rewrite Hs. cbn. rewrite He. cbn. by destruct w.
Qed.

Lemma run_handled (inp : Inputs J) (gdf : GDF) (fs : gmap string F) s :
  handle_drawing inp (mkWorld (Some gdf) fs, header) = (s, Ok ()) →
  run inp (mkWorld (Some gdf) fs) = outcome_of (display s).
Proof. intros Hh. rewrite run_initialised. by rewrite (bind_ok _ _ _ _ _ Hh). Qed.

(** What one execution does to the collection of the session: nothing, or
    the record of a validated drawing appended at its end. *)
Lemma run_step (inp : Inputs J) (gdf : GDF) (fs : gmap string F) :
  let o := run inp (mkWorld (Some gdf) fs) in
  ∃ gdf', session_gdf (final o) = Some gdf' ∧ rows gdf' = rows gdf ++ appended o ∧
    ((gdf' = gdf ∧ appended o = [] ∧ saved o = false) ∨
     (∃ d, drawings inp ≫= last = Some d ∧
           is_empty (shape (feature_geometry d)) = false ∧
           is_valid (shape (feature_geometry d)) = true ∧
           gdf' = saved_frame gdf (new_record inp gdf (shape (feature_geometry d))) ∧
           appended o = [new_record inp gdf (shape (feature_geometry d))] ∧
           saved o = all_writable inp)).
Proof.
  intros o. subst o.
  assert (final (run inp (mkWorld (Some gdf) fs)) = mkWorld (Some gdf) fs ∧
          effects (events (run inp (mkWorld (Some gdf) fs))) = [] ∧
          saved (run inp (mkWorld (Some gdf) fs)) = false →
          ∃ gdf', session_gdf (final (run inp (mkWorld (Some gdf) fs))) = Some gdf' ∧
            rows gdf' = rows gdf ++ appended (run inp (mkWorld (Some gdf) fs)) ∧
            ((gdf' = gdf ∧ appended (run inp (mkWorld (Some gdf) fs)) = [] ∧
              saved (run inp (mkWorld (Some gdf) fs)) = false) ∨
             (∃ d, drawings inp ≫= last = Some d ∧
                is_empty (shape (feature_geometry d)) = false ∧
                is_valid (shape (feature_geometry d)) = true ∧
                gdf' = saved_frame gdf (new_record inp gdf (shape (feature_geometry d))) ∧
                appended (run inp (mkWorld (Some gdf) fs))
                  = [new_record inp gdf (shape (feature_geometry d))] ∧
                saved (run inp (mkWorld (Some gdf) fs)) = all_writable inp)))
    as Hsame.
  { intros (Hw & Heff & Hs). destruct (effects_nil _ Heff) as [Ha _].
    exists gdf. unfold appended. rewrite Hw, Ha. cbn. rewrite app_nil_r.
    split_and!; try done. by left. }
  destruct (drawings inp ≫= last) as [d|] eqn:Hd.
  2: { apply Hsame, run_idle. by left. }
  destruct (is_empty (shape (feature_geometry d))) eqn:He.
  { apply Hsame, (run_rejected _ _ _ d); auto. }
  destruct (is_valid (shape (feature_geometry d))) eqn:Hv.
  2: { apply Hsame, (run_rejected _ _ _ d); auto. }
  destruct (save_clicked inp) eqn:Hc.
  2: { apply Hsame, run_idle. by right. }
  destruct (run_save_session inp gdf fs d Hd He Hv Hc) as (Hs & Ha & Hsv).
  eexists. split; [exact Hs|]. unfold appended. rewrite Ha. cbn.
  rewrite !saved_frame_last. split; [done|].
  right. exists d. by split_and!.
Qed.

(** The geometry under validation is the shape of the last drawing. *)
Lemma drawings_snoc (inp : Inputs J) (ds : list (Feature J)) (d : Feature J) :
  drawings (with_drawings inp (ds ++ [d])) ≫= last = Some d.
Proof.
  unfold drawings, with_drawings; simpl.
  destruct (ds ++ [d]) as [|d0 l] eqn:E.
  - by destruct ds.
  - simpl. rewrite <- E. apply last_snoc.
Qed.

(** *** The first execution of a session *)

Lemma pi_bind {A B : Type} (m : Script J G F A) (f : A → Script J G F B) :
  prefix_independent m → (∀ a, prefix_independent (f a)) →
  prefix_independent (bind m f).
Proof.
  intros Hm Hf w pre evs. unfold bind. rewrite Hm.
  destruct (m (w, evs)) as [[w' evs'] [a|e]]; cbn; [|done].
  rewrite Hf. by destruct (f a (w', evs')) as [[??]?].
Qed.

Lemma pi_ret {A : Type} (a : A) : prefix_independent (ret (J:=J) (G:=G) (F:=F) a).
Proof. done. Qed.

Lemma pi_raise {A : Type} (e : Exn) :
  prefix_independent (raise (J:=J) (G:=G) (F:=F) (A:=A) e).
Proof. done. Qed.

Lemma pi_lift {A : Type} (r : result A) : prefix_independent (lift (J:=J) (G:=G) (F:=F) r).
Proof. done. Qed.

Lemma pi_st (e : Element J G F) : prefix_independent (st e).
Proof. intros w pre evs. unfold st, emit. cbn. by rewrite app_assoc. Qed.

Lemma pi_get_session_gdf : prefix_independent (get_session_gdf (J:=J) (G:=G) (F:=F)).
Proof. intros w pre evs. unfold get_session_gdf. cbn. by destruct (session_gdf w). Qed.

Lemma pi_set_session_gdf (gdf : GDF) :
  prefix_independent (set_session_gdf (J:=J) (G:=G) (F:=F) gdf).
Proof. intros w pre evs. unfold set_session_gdf. cbn. by rewrite app_assoc. Qed.

Lemma pi_read_bytes (path : string) :
  prefix_independent (read_bytes (J:=J) (G:=G) (F:=F) path).
Proof. intros w pre evs. unfold read_bytes. cbn. by destruct (disk w !! path). Qed.

Lemma pi_write_bytes (can_write : string → bool) (path : string) (data : F) :
  prefix_independent (write_bytes (J:=J) (G:=G) (F:=F) can_write path data).
Proof.
  intros w pre evs. unfold write_bytes. cbn.
  destruct (can_write path); cbn; by rewrite ?app_assoc.
Qed.

Lemma pi_st_map (gdf : GDF) : prefix_independent (st_map (J:=J) (F:=F) gdf).
Proof. unfold st_map. destruct (has_coordinates gdf); [apply pi_st|apply pi_raise]. Qed.

Ltac pi_solve :=
  repeat first
    [ apply pi_bind; [|intros ?]
    | apply pi_ret | apply pi_raise | apply pi_lift | apply pi_st | apply pi_st_map
    | apply pi_get_session_gdf
    | apply pi_set_session_gdf | apply pi_read_bytes | apply pi_write_bytes
    | case_match ].

Lemma pi_handle_drawing (inp : Inputs J) : prefix_independent (handle_drawing inp).
Proof. unfold handle_drawing, text_input, button. pi_solve. Qed.

Lemma pi_viewer : prefix_independent (viewer (J:=J) (G:=G) (F:=F)).
Proof. unfold viewer. pi_solve. Qed.

Lemma pi_page_body (inp : Inputs J) : prefix_independent (page_body inp).
Proof.
  unfold page_body. pi_solve; first [apply pi_handle_drawing | apply pi_viewer].
Qed.

Lemma script_body (inp : Inputs J) : script inp = (init_session;; page_body inp).
Proof. reflexivity. Qed.

Lemma init_session_some (gdf : GDF) (fs : gmap string F) (evs : list Ev) :
  init_session (mkWorld (Some gdf) fs, evs) = ((mkWorld (Some gdf) fs, evs), Ok ()).
Proof. reflexivity. Qed.

Lemma init_session_none (fs : gmap string F) (evs : list Ev) :
  init_session (mkWorld None fs, evs) =
    match load_gdf fs with
    | Ok gdf => ((mkWorld (Some gdf) fs, evs ++ [SessionAssign gdf]), Ok ())
    | Raise e => ((mkWorld None fs, evs), Raise e)
    end.
Proof.
  unfold init_session, bind, has_session_gdf, get_disk, lift, set_session_gdf. cbn.
  by destruct (load_gdf fs).
Qed.

(** The first execution loads the collection, assigns it to the session and
    goes on as an execution on the initialised session; when the load raises,
    nothing happens at all. *)
Lemma run_uninitialised (inp : Inputs J) (fs : gmap string F) :
  match load_gdf fs with
  | Ok gdf =>
      final (run inp (mkWorld None fs)) = final (run inp (mkWorld (Some gdf) fs)) ∧
      events (run inp (mkWorld None fs)) =
        SessionAssign gdf :: events (run inp (mkWorld (Some gdf) fs)) ∧
      raised (run inp (mkWorld None fs)) = raised (run inp (mkWorld (Some gdf) fs))
  | Raise e =>
      run inp (mkWorld None fs) =
        {| final := mkWorld None fs; events := []; raised := Some e |}
  end.
Proof.
  unfold run. rewrite script_body.
  pose proof (init_session_none fs []) as Hinit.
  destruct (load_gdf fs) as [gdf|e].
  - rewrite (bind_ok _ _ _ _ _ Hinit).
    rewrite (bind_ok _ _ _ _ _ (init_session_some gdf fs [])).
    change ([] ++ [SessionAssign gdf]) with ([SessionAssign gdf] ++ [] : list Ev).
    rewrite pi_page_body. done.
  - by rewrite (bind_raise _ _ _ _ _ Hinit).
Qed.

Lemma run_many_cons (inp : Inputs J) (inps : list (Inputs J)) (w : W) :
  run_many (inp :: inps) w = run_many inps (final (run inp w)).
Proof. reflexivity. Qed.

Lemma outcomes_cons (inp : Inputs J) (inps : list (Inputs J)) (w : W) :
  outcomes (inp :: inps) w = run inp w :: outcomes inps (final (run inp w)).
Proof. reflexivity. Qed.

(** After a save whose three writes succeeded the loader reads the
    GeoPackage that this save wrote. *)
Lemma load_after_save (inp : Inputs J) (gdf : GDF) (fs : gmap string F) (d : Feature J) :
  drawings inp ≫= last = Some d →
  is_empty (shape (feature_geometry d)) = false →
  is_valid (shape (feature_geometry d)) = true →
  save_clicked inp = true →
  all_writable inp = true →
  load_gdf (disk (final (run inp (mkWorld (Some gdf) fs)))) =
    read_file (to_file GPKG
      (saved_frame gdf (new_record inp gdf (shape (feature_geometry d))))).
Proof.
  intros Hd He Hv Hc Hall.
  pose proof (handle_save inp gdf fs header d Hd He Hv Hc) as Hh. cbn zeta in Hh.
  rewrite persist_succeeds in Hh by done.
  destruct (run_after_handler _ _ _ _ _ _ Hh) as (es & -> & _).
  unfold load_gdf, os_path_exists, gpd_read_file, written, targets. cbn.
  by repeat (rewrite lookup_insert_eq || rewrite lookup_insert_ne by done).
Qed.

(** *** More on the display *)

Lemma tables_app (l k : list Ev) : tables (l ++ k) = tables l ++ tables k.
Proof. unfold tables. by rewrite page_app, omap_app. Qed.

Lemma downloads_app (l k : list Ev) : downloads (l ++ k) = downloads l ++ downloads k.
Proof. unfold downloads. by rewrite page_app, omap_app. Qed.

Lemma captions_app (l k : list Ev) : captions (l ++ k) = captions l ++ captions k.
Proof. unfold captions. by rewrite page_app, omap_app. Qed.

Lemma infos_app (l k : list Ev) : infos (l ++ k) = infos l ++ infos k.
Proof. unfold infos. by rewrite page_app, omap_app. Qed.

Lemma inspected_app (l k : list Ev) : inspected (l ++ k) = inspected l ++ inspected k.
Proof. unfold inspected. by rewrite page_app, omap_app. Qed.

#[local] Hint Rewrite tables_app downloads_app captions_app infos_app inspected_app
  : observe.

(** The viewer and the caption, in full: nothing but the caption for an
    empty collection; else the table, then the map, which data without
    coordinate columns stops; past the map the GeoJSON string, then one
    download per file that can be opened, and the caption only when both
    could. *)
Lemma display_eq (gdf : GDF) (fs : gmap string F) (evs : list Ev) :
  display (mkWorld (Some gdf) fs, evs) =
    if gdf_empty gdf then ((mkWorld (Some gdf) fs, evs ++ [caption]), Ok ())
    else if has_coordinates gdf then
      match to_json gdf with
      | Raise e =>
          ((mkWorld (Some gdf) fs, evs ++ table_view gdf ++ [Render (Map (len gdf))]),
           Raise e)
      | Ok geojson_str =>
          match fs !! GPKG_PATH with
          | None =>
              ((mkWorld (Some gdf) fs, evs ++ collection_view gdf geojson_str),
               Raise (FileNotFoundError GPKG_PATH))
          | Some a =>
              match fs !! PARQUET_PATH with
              | None =>
                  ((mkWorld (Some gdf) fs,
                    evs ++ collection_view gdf geojson_str ++
                      [file_download "⬇️ Download GeoPackage" "aois.gpkg"
                         "application/geopackage+sqlite3" a]),
                   Raise (FileNotFoundError PARQUET_PATH))
              | Some b =>
                  ((mkWorld (Some gdf) fs,
                    evs ++ collection_view gdf geojson_str ++
                      [file_download "⬇️ Download GeoPackage" "aois.gpkg"
                         "application/geopackage+sqlite3" a;
                       file_download "⬇️ Download Parquet" "aois.parquet"
                         "application/octet-stream" b;
                       caption]),
                   Ok ())
              end
          end
      end
    else ((mkWorld (Some gdf) fs, evs ++ table_view gdf), Raise StreamlitAPIException).
Proof.
  unfold display, viewer, st_map, bind, st, emit, raise, lift, get_session_gdf,
    read_bytes, ret. cbn.
  destruct (gdf_empty gdf); cbn; [done|].
  destruct (has_coordinates gdf); cbn; [|by rewrite <- !app_assoc].
  destruct (to_json gdf) as [geojson_str|e]; cbn; [|by rewrite <- !app_assoc].
  destruct (fs !! GPKG_PATH); cbn; [|by rewrite <- !app_assoc].
  destruct (fs !! PARQUET_PATH); cbn; by rewrite <- !app_assoc.
Qed.

(** A non-empty collection without coordinate columns: the display shows
    the table and stops at the map. *)
Lemma display_stops (gdf : GDF) (fs : gmap string F) (evs : list Ev) :
  gdf_empty gdf = false → has_coordinates gdf = false →
  display (mkWorld (Some gdf) fs, evs) =
    ((mkWorld (Some gdf) fs, evs ++ table_view gdf), Raise StreamlitAPIException).
Proof. intros He Hc. by rewrite display_eq, He, Hc. Qed.

(** The columns a save adds are not coordinate columns. *)
Lemma has_column_saved_frame (names : list string) (gdf : GDF) (r : AOI G) :
  existsb (λ c, bool_decide (c ∈ names)) schema = false →
  has_column names (saved_frame gdf r) = has_column names gdf.
Proof.
  intros Hschema. unfold has_column, saved_frame, gdf_append. cbn [columns].
  rewrite existsb_app.
  enough (existsb (λ c, bool_decide (c ∈ names))
            (filter (λ c, c ∉ columns gdf) schema) = false) as -> by apply orb_false_r.
  apply not_true_is_false. intros (c & Hin & Hc)%existsb_exists.
  apply list_elem_of_In, list_elem_of_filter in Hin as [_ Hin].
  apply not_true_iff_false in Hschema. apply Hschema, existsb_exists.
  exists c. split; [by apply list_elem_of_In|done].
Qed.

Lemma has_coordinates_saved_frame (gdf : GDF) (r : AOI G) :
  has_coordinates (saved_frame gdf r) = has_coordinates gdf.
Proof.
  unfold has_coordinates. by rewrite !has_column_saved_frame.
Qed.

Lemma has_coordinates_empty_gdf : has_coordinates (empty_gdf (G:=G)) = false.
Proof. reflexivity. Qed.

(** Either the handler cannot reach the save, or its last drawing passes
    both checks and the button was clicked. *)
Lemma handler_cases (inp : Inputs J) :
  no_save inp ∨
  ∃ d, drawings inp ≫= last = Some d ∧
       is_empty (shape (feature_geometry d)) = false ∧
       is_valid (shape (feature_geometry d)) = true ∧
       save_clicked inp = true.
Proof.
  unfold no_save. destruct (drawings inp ≫= last) as [d|]; [|by left].
  destruct (save_clicked inp); [|by left; left].
  destruct (is_empty (shape (feature_geometry d))) eqn:He; [by left; right; left|].
  destruct (is_valid (shape (feature_geometry d))) eqn:Hv; [|by left; right; right].
  right. by exists d.
Qed.

(** With inputs that cannot reach the save the handler leaves the world as
    it is and shows nothing of the collection. *)
Lemma handle_unchanged (inp : Inputs J) (gdf : GDF) (fs : gmap string F) :
  no_save inp →
  ∃ evs, handle_drawing inp (mkWorld (Some gdf) fs, header)
           = ((mkWorld (Some gdf) fs, header ++ evs), Ok ()) ∧
         tables evs = [] ∧ downloads evs = [] ∧ captions evs = [] ∧
         effects evs = [] ∧ successes evs = [] ∧
         infos evs = (if drawings inp ≫= last is None then [msg_info] else []).
Proof.
  unfold no_save. intros Hns.
  destruct (drawings inp ≫= last) as [d|] eqn:Hd.
  2: { eexists. split; [by apply handle_none|]. by split_and!. }
  destruct (is_empty (shape (feature_geometry d))) eqn:He.
  { eexists. split; [by apply handle_empty|]. by split_and!. }
  destruct (is_valid (shape (feature_geometry d))) eqn:Hv.
  2: { eexists. split; [by apply handle_invalid|]. by split_and!. }
  destruct Hns as [Hc|[|]]; [|done..].
  eexists. split; [by apply handle_no_click|]. by split_and!.
Qed.

Lemma run_no_save (inp : Inputs J) (gdf : GDF) (fs : gmap string F) :
  no_save inp →
  ∃ evs, run inp (mkWorld (Some gdf) fs)
           = outcome_of (display (mkWorld (Some gdf) fs, header ++ evs)) ∧
         tables evs = [] ∧ downloads evs = [] ∧ captions evs = [] ∧
         effects evs = [] ∧ successes evs = [] ∧
         infos evs = (if drawings inp ≫= last is None then [msg_info] else []).
Proof.
  intros Hns. destruct (handle_unchanged inp gdf fs Hns) as (evs & Hh & Hevs).
  exists evs. split; [|done]. by apply run_handled.
Qed.

Lemma display_no_info (es : list (Element J G F)) :
  forallb is_display es = true → infos (Render <$> es : list Ev) = [].
Proof.
  induction es as [|e es IH]; [done|]. cbn.
  intros [He Hes]%andb_prop. unfold infos in *. cbn. rewrite <- (IH Hes).
  by destruct e.
Qed.

Lemma display_no_inspect (es : list (Element J G F)) :
  forallb is_display es = true → inspected (Render <$> es : list Ev) = [].
Proof.
  induction es as [|e es IH]; [done|]. cbn.
  intros [He Hes]%andb_prop. unfold inspected in *. cbn. rewrite <- (IH Hes).
  by destruct e.
Qed.

(** With a drawing the hint is not shown, whatever the handler does. *)
Lemma run_infos (inp : Inputs J) (gdf : GDF) (fs : gmap string F) (d : Feature J) :
  drawings inp ≫= last = Some d →
  infos (events (run inp (mkWorld (Some gdf) fs))) = [].
Proof.
  intros Hd.
  assert (∀ w' evs' r,
            handle_drawing inp (mkWorld (Some gdf) fs, header) = ((w', evs'), r) →
            infos evs' = [] →
            infos (events (run inp (mkWorld (Some gdf) fs))) = []) as Hdone.
  { intros w' evs' r Hh Hi.
    destruct (run_after_handler _ _ _ _ _ _ Hh) as (es & _ & -> & Hes & _).
    autorewrite with observe. by rewrite Hi, (display_no_info es Hes). }
  destruct (is_empty (shape (feature_geometry d))) eqn:He.
  { eapply Hdone; [by apply handle_empty|done]. }
  destruct (is_valid (shape (feature_geometry d))) eqn:Hv.
  2: { eapply Hdone; [by apply handle_invalid|done]. }
  destruct (save_clicked inp) eqn:Hc.
  2: { eapply Hdone; [by apply handle_no_click|done]. }
  pose proof (handle_save inp gdf fs header d Hd He Hv Hc) as Hh. cbn zeta in Hh.
  destruct (first_failure inp) as [Hall | (k & path & ser & Hk & Hbefore & Hfail)].
  - rewrite persist_succeeds in Hh by done. eapply Hdone; [exact Hh|done].
  - rewrite (persist_fails _ _ _ _ _ k path ser) in Hh by done.
    eapply Hdone; [exact Hh|]. autorewrite with observe.
    by destruct k as [|[|[|k]]].
Qed.

(** With a drawing, the geometry shown for inspection is the geometry of the
    last drawing, and no other is shown. *)
Lemma run_inspected (inp : Inputs J) (gdf : GDF) (fs : gmap string F) (d : Feature J) :
  drawings inp ≫= last = Some d →
  inspected (events (run inp (mkWorld (Some gdf) fs))) = [feature_geometry d].
Proof.
  intros Hd.
  assert (∀ w' evs' r,
            handle_drawing inp (mkWorld (Some gdf) fs, header) = ((w', evs'), r) →
            inspected evs' = [feature_geometry d] →
            inspected (events (run inp (mkWorld (Some gdf) fs))) = [feature_geometry d])
    as Hdone.
  { intros w' evs' r Hh Hi.
    destruct (run_after_handler _ _ _ _ _ _ Hh) as (es & _ & -> & Hes & _).
    autorewrite with observe. by rewrite Hi, (display_no_inspect es Hes). }
  destruct (is_empty (shape (feature_geometry d))) eqn:He.
  { eapply Hdone; [by apply handle_empty|done]. }
  destruct (is_valid (shape (feature_geometry d))) eqn:Hv.
  2: { eapply Hdone; [by apply handle_invalid|done]. }
  destruct (save_clicked inp) eqn:Hc.
  2: { eapply Hdone; [by apply handle_no_click|done]. }
  pose proof (handle_save inp gdf fs header d Hd He Hv Hc) as Hh. cbn zeta in Hh.
  destruct (first_failure inp) as [Hall | (k & path & ser & Hk & Hbefore & Hfail)].
  - rewrite persist_succeeds in Hh by done. eapply Hdone; [exact Hh|done].
  - rewrite (persist_fails _ _ _ _ _ k path ser) in Hh by done.
    eapply Hdone; [exact Hh|]. autorewrite with observe.
    by destruct k as [|[|[|k]]].
Qed.
(** *** Saves, seen from the files *)

Lemma gdf_empty_saved_frame (gdf : GDF) (r : AOI G) : gdf_empty (saved_frame gdf r) = false.
Proof.
  unfold gdf_empty, saved_frame, gdf_append. cbn.
  destruct (rows gdf); cbn; by destruct (columns gdf).
Qed.

Lemma written_targets (gdf : GDF) (fs : gmap string F) :
  written gdf targets fs !! GPKG_PATH = Some (to_file GPKG gdf) ∧
  written gdf targets fs !! GEOJSON_PATH = Some (to_file GeoJSON gdf) ∧
  written gdf targets fs !! PARQUET_PATH = Some (to_parquet gdf) ∧
  ∀ p, p ≠ GPKG_PATH → p ≠ GEOJSON_PATH → p ≠ PARQUET_PATH →
       written gdf targets fs !! p = fs !! p.
Proof.
  unfold written, targets. cbn. split_and!.
  1-3: by repeat (rewrite lookup_insert_eq || rewrite lookup_insert_ne by done).
  intros p H1 H2 H3. by rewrite !lookup_insert_ne.
Qed.

(** Writes only add or replace the three files. *)
Lemma written_lookup (gdf : GDF) (n : nat) (fs : gmap string F) (p : string) :
  (is_Some (fs !! p) → is_Some (written gdf (take n targets) fs !! p)) ∧
  (p ≠ GPKG_PATH → p ≠ GEOJSON_PATH → p ≠ PARQUET_PATH →
   written gdf (take n targets) fs !! p = fs !! p).
Proof.
  unfold written, targets.
  destruct n as [|[|[|n]]]; cbn; rewrite ?take_nil; cbn;
    (split; [intros Hp|intros H1 H2 H3]);
    rewrite ?lookup_insert; repeat case_decide; by subst.
Qed.

(** A save whose three writes succeed, as one equation. *)
Lemma run_save_ok (inp : Inputs J) (gdf : GDF) (fs : gmap string F) (d : Feature J) :
  drawings inp ≫= last = Some d →
  is_empty (shape (feature_geometry d)) = false →
  is_valid (shape (feature_geometry d)) = true →
  save_clicked inp = true →
  all_writable inp = true →
  let r := new_record inp gdf (shape (feature_geometry d)) in
  run inp (mkWorld (Some gdf) fs) =
    outcome_of (display
      (mkWorld (Some (saved_frame gdf r)) (written (saved_frame gdf r) targets fs),
       header ++ current_geometry d ++ asking gdf ++
         SessionAssign (saved_frame gdf r) ::
         writes (saved_frame gdf r) targets ++
         [Render (Success (confirmation (name r)))])).
Proof.
  intros Hd He Hv Hc Hall r. subst r.
  pose proof (handle_save inp gdf fs header d Hd He Hv Hc) as Hh. cbn zeta in Hh.
  rewrite persist_succeeds in Hh by done.
  rewrite (run_handled _ _ _ _ Hh). unfold confirmation. cbn [session_gdf disk].
  by rewrite <- !app_assoc.
Qed.

(** The disk after one execution: the disk before it with a prefix of the
    three writes of one frame. *)
Lemma run_disk (inp : Inputs J) (gdf : GDF) (fs : gmap string F) :
  ∃ n gdf', disk (final (run inp (mkWorld (Some gdf) fs)))
              = written gdf' (take n targets) fs.
Proof.
  assert (final (run inp (mkWorld (Some gdf) fs)) = mkWorld (Some gdf) fs →
          ∃ n gdf', disk (final (run inp (mkWorld (Some gdf) fs)))
                      = written gdf' (take n targets) fs) as Hsame.
  { intros ->. by exists 0, gdf. }
  destruct (drawings inp ≫= last) as [d|] eqn:Hd.
  2: { apply Hsame, run_idle. by left. }
  destruct (is_empty (shape (feature_geometry d))) eqn:He.
  { apply Hsame, (run_rejected _ _ _ d); auto. }
  destruct (is_valid (shape (feature_geometry d))) eqn:Hv.
  2: { apply Hsame, (run_rejected _ _ _ d); auto. }
  destruct (save_clicked inp) eqn:Hc.
  2: { apply Hsame, run_idle. by right. }
  pose proof (handle_save inp gdf fs header d Hd He Hv Hc) as Hh. cbn zeta in Hh.
  destruct (first_failure inp) as [Hall | (k & path & ser & Hk & Hbefore & Hfail)].
  - rewrite persist_succeeds in Hh by done.
    destruct (run_after_handler _ _ _ _ _ _ Hh) as (es & -> & _).
    by eexists 3, _.
  - rewrite (persist_fails _ _ _ _ _ k path ser) in Hh by done.
    destruct (run_after_handler _ _ _ _ _ _ Hh) as (es & -> & _).
    by eexists k, _.
Qed.

(** A save whose [k]-th write raises, as one equation. *)
Lemma run_save_fails (inp : Inputs J) (gdf : GDF) (fs : gmap string F) (d : Feature J)
    (k : nat) (path : string) (ser : GDF → F) :
  drawings inp ≫= last = Some d →
  is_empty (shape (feature_geometry d)) = false →
  is_valid (shape (feature_geometry d)) = true →
  save_clicked inp = true →
  targets !! k = Some (path, ser) →
  (∀ t, t ∈ take k targets → writable inp t.1 = true) →
  writable inp path = false →
  let r := new_record inp gdf (shape (feature_geometry d)) in
  run inp (mkWorld (Some gdf) fs) =
    {| final := mkWorld (Some (saved_frame gdf r))
                  (written (saved_frame gdf r) (take k targets) fs);
       events := header ++ current_geometry d ++ asking gdf ++
                   SessionAssign (saved_frame gdf r) ::
                   writes (saved_frame gdf r) (take k targets);
       raised := Some (OSError path) |}.
Proof.
  intros Hd He Hv Hc Hk Hbefore Hfail r. subst r.
  pose proof (handle_save inp gdf fs header d Hd He Hv Hc) as Hh. cbn zeta in Hh.
  rewrite (persist_fails _ _ _ _ _ k path ser) in Hh by done.
  rewrite run_initialised, (bind_raise _ _ _ _ _ Hh).
  unfold outcome_of. cbn [fst snd session_gdf disk]. by rewrite <- !app_assoc.
Qed.

Lemma run_no_save_final (inp : Inputs J) (gdf : GDF) (fs : gmap string F) :
  no_save inp → final (run inp (mkWorld (Some gdf) fs)) = mkWorld (Some gdf) fs.
Proof.
  intros Hns. destruct (run_no_save inp gdf fs Hns) as (evs & -> & _).
  rewrite display_eq.
  by destruct (gdf_empty gdf), (has_coordinates gdf), (to_json gdf),
       (fs !! GPKG_PATH), (fs !! PARQUET_PATH).
Qed.

(** The disk after one execution from any world. *)
Lemma run_disk_any (inp : Inputs J) (w : W) :
  ∃ n gdf', disk (final (run inp w)) = written gdf' (take n targets) (disk w).
Proof.
  destruct w as [[gdf|] fs]; [apply run_disk|].
  pose proof (run_uninitialised inp fs) as Hrun.
  destruct (load_gdf fs) as [gdf|e].
  - destruct Hrun as (-> & _). apply run_disk.
  - rewrite Hrun. by exists 0, empty_gdf.
Qed.

(** An execution on a collection without coordinate columns offers no
    download; the collection it leaves has no coordinate columns either, and
    when that collection is not empty the execution ended in an exception
    before the caption. *)
Lemma run_without_coordinates (inp : Inputs J) (gdf : GDF) (fs : gmap string F) :
  has_coordinates gdf = false →
  let o := run inp (mkWorld (Some gdf) fs) in
  downloads (events o) = [] ∧
  ∃ gdf', session_gdf (final o) = Some gdf' ∧ has_coordinates gdf' = false ∧
    (gdf_empty gdf' = false → raised o ≠ None ∧ captions (events o) = []).
Proof.
  intros Hco o. subst o.
  destruct (handler_cases inp) as [Hns | (d & Hd & He & Hv & Hc)].
  - destruct (run_no_save inp gdf fs Hns) as (evs & -> & _ & Hdl & Hcap & _).
    rewrite display_eq, Hco.
    destruct (gdf_empty gdf) eqn:Hempty; unfold outcome_of;
      cbn [fst snd final events raised session_gdf]; autorewrite with observe;
      rewrite Hdl, ?Hcap; (split; [done|]); exists gdf; by rewrite ?Hempty.
  - destruct (first_failure inp) as [Hall | (k & path & ser & Hk & Hb & Hfail)].
    + rewrite (run_save_ok inp gdf fs d) by done. cbn zeta.
      rewrite display_stops;
        [|apply gdf_empty_saved_frame|by rewrite has_coordinates_saved_frame].
      unfold outcome_of. cbn [fst snd final events raised session_gdf].
      split; [done|]. eexists. split; [done|].
      by rewrite has_coordinates_saved_frame.
    + rewrite (run_save_fails inp gdf fs d k path ser) by done.
      cbn [final events raised session_gdf]. split.
      * by destruct k as [|[|[|k]]].
      * eexists. split; [done|]. rewrite has_coordinates_saved_frame.
        split; [done|]. intros _. split; [done|]. by destruct k as [|[|[|k]]].
Qed.
(** *** Main results *)

(** C3. The validity checks give every candidate geometry exactly one
    outcome: [IsEmpty] when [is_empty] holds, [SelfInvalid] when it is not
    empty and [is_valid] fails, [Valid] otherwise; a non-empty valid geometry
    is always [Valid]. *)
Theorem validator_classifies (gdf : GDF) (fs : gmap string F) (inp : Inputs J)
    (d : Feature J) :
  drawings inp ≫= last = Some d →
  let geom := shape (feature_geometry d) in
  let vs := verdicts (events (run inp (mkWorld (Some gdf) fs))) in
  (is_empty geom = true → vs = [IsEmpty]) ∧
  (is_empty geom = false → is_valid geom = false → vs = [SelfInvalid]) ∧
  (is_empty geom = false → is_valid geom = true → vs = [Valid]).
Proof.
  intros Hd geom vs. subst vs geom. split_and!.
  - intros He. pose proof (handle_empty inp gdf fs header d Hd He) as Hh.
    after_handler Hh es Hes. by observe.
  - intros He Hv. pose proof (handle_invalid inp gdf fs header d Hd He Hv) as Hh.
    after_handler Hh es Hes. by observe.
  - intros He Hv. destruct (run_accepted inp gdf fs d Hd He Hv) as (l & -> & Hl & _).
    observe. by rewrite Hl.
Qed.

(** C5. A geometry the checks reject causes no change of state: the world
    after the execution is the world before it (the collection in the
    session and every file), and the execution performs no assignment to the
    session and no file write. *)
Theorem rejection_changes_nothing (gdf : GDF) (fs : gmap string F) (inp : Inputs J)
    (d : Feature J) :
  drawings inp ≫= last = Some d →
  is_empty (shape (feature_geometry d)) = true ∨
    is_valid (shape (feature_geometry d)) = false →
  let o := run inp (mkWorld (Some gdf) fs) in
  final o = mkWorld (Some gdf) fs ∧
  assignments (events o) = [] ∧
  file_writes (events o) = [] ∧
  saved o = false.
Proof.
  intros Hd Hrej o. subst o.
  destruct (run_rejected inp gdf fs d Hd Hrej) as (Hw & Heff & Hs).
  destruct (effects_nil _ Heff). by split_and!.
Qed.

(** C8. Of a non-empty list of drawings only the last entry is used, and it
    is used: the execution is the same whatever the earlier entries are; the
    geometry shown for inspection is the geometry of the last entry; the
    verdict is the outcome of the two checks on the shape built from it; and
    the record a save appends carries that shape. *)
Theorem only_last_drawing_used (inp : Inputs J) (gdf : GDF) (fs : gmap string F)
    (ds ds' : list (Feature J)) (d : Feature J) :
  let inp1 := with_drawings inp (ds ++ [d]) in
  let o := run inp1 (mkWorld (Some gdf) fs) in
  let geom := shape (feature_geometry d) in
  (∀ w, run inp1 w = run (with_drawings inp (ds' ++ [d])) w) ∧
  inspected (events o) = [feature_geometry d] ∧
  verdicts (events o) =
    [if is_empty geom then IsEmpty else if is_valid geom then Valid else SelfInvalid] ∧
  appended o =
    (if negb (is_empty geom) && is_valid geom && save_clicked inp
     then [new_record inp gdf geom] else []).
Proof.
  intros inp1 o geom. subst o geom.
  pose proof (drawings_snoc inp ds d) as Hd. fold inp1 in Hd.
  split_and!.
  - intros w. unfold run, script. f_equal. unfold bind.
    destruct (init_session (w, [])) as [s [[]|e]]; [|done]. cbn.
    unfold handle_drawing, inp1. by rewrite !drawings_snoc.
  - by apply run_inspected.
  - destruct (is_empty (shape (feature_geometry d))) eqn:He.
    { pose proof (handle_empty inp1 gdf fs header d Hd He) as Hh.
      after_handler Hh es Hes. by observe. }
    destruct (is_valid (shape (feature_geometry d))) eqn:Hv.
    + destruct (run_accepted inp1 gdf fs d Hd He Hv) as (l & -> & Hl & _).
      observe. by rewrite Hl.
    + pose proof (handle_invalid inp1 gdf fs header d Hd He Hv) as Hh.
      after_handler Hh es Hes. by observe.
  - unfold appended.
    destruct (is_empty (shape (feature_geometry d))) eqn:He.
    { destruct (run_rejected inp1 gdf fs d Hd (or_introl He)) as (_ & Heff & _).
      destruct (effects_nil _ Heff) as [-> _]. done. }
    destruct (is_valid (shape (feature_geometry d))) eqn:Hv.
    2: { destruct (run_rejected inp1 gdf fs d Hd (or_intror Hv)) as (_ & Heff & _).
         destruct (effects_nil _ Heff) as [-> _]. done. }
    destruct (save_clicked inp) eqn:Hc.
    + destruct (run_save_session inp1 gdf fs d Hd He Hv Hc) as (_ & -> & _).
      cbn. by rewrite saved_frame_last.
    + destruct (run_idle inp1 gdf fs (or_intror Hc)) as (_ & Heff & _).
      destruct (effects_nil _ Heff) as [-> _]. done.
Qed.

(** C9. The name box of a save offers ["AOI n"] where [n] is the size of
    the collection before the append plus one; the saved record carries the
    content of the box, and nothing keeps it apart from the names already in
    the collection. *)
Theorem default_name_offered (gdf : GDF) (fs : gmap string F) (inp : Inputs J)
    (d : Feature J) :
  drawings inp ≫= last = Some d →
  is_empty (shape (feature_geometry d)) = false →
  is_valid (shape (feature_geometry d)) = true →
  let o := run inp (mkWorld (Some gdf) fs) in
  let offered := "AOI " +:+ pretty (length (rows gdf) + 1) in
  offered_names (events o) = [offered] ∧
  (save_clicked inp = true →
   ∃ gdf', session_gdf (final o) = Some gdf' ∧
     name <$> rows gdf' = (name <$> rows gdf) ++ [default offered (typed_name inp)] ∧
     (default offered (typed_name inp) ∈ name <$> rows gdf → ¬ NoDup (name <$> rows gdf'))).
Proof.
  intros Hd He Hv o offered. subst o offered. split.
  - destruct (run_accepted inp gdf fs d Hd He Hv) as (l & -> & _ & Hl).
    observe. by rewrite Hl.
  - intros Hc.
    destruct (run_save_session inp gdf fs d Hd He Hv Hc) as (Hs & _ & _).
    eexists. split; [exact Hs|]. unfold saved_frame, new_record, default_name, len.
    cbn. rewrite fmap_app. cbn. split; [done|].
    intros Hin (_ & Hdisj & _)%NoDup_app. eapply Hdisj; [exact Hin|]. apply list_elem_of_singleton. done.
Qed.

(** C10. A save assigns the collection with the new record to the session
    before its first write: its changes of state are the assignment followed
    by the writes it got to.  When the write of the [k]-th of the three files
    raises, the session keeps the new record, the files written before hold
    the new collection, and the file at [k] and those after it are as they
    were: nothing is rolled back. *)
Theorem save_has_no_rollback (gdf : GDF) (fs : gmap string F) (inp : Inputs J)
    (d : Feature J) :
  drawings inp ≫= last = Some d →
  is_empty (shape (feature_geometry d)) = false →
  is_valid (shape (feature_geometry d)) = true →
  save_clicked inp = true →
  let gdf' := saved_frame gdf (new_record inp gdf (shape (feature_geometry d))) in
  let o := run inp (mkWorld (Some gdf) fs) in
  session_gdf (final o) = Some gdf' ∧
  rows gdf' = rows gdf ++ [new_record inp gdf (shape (feature_geometry d))] ∧
  (∃ n, effects (events o) = SessionAssign gdf' :: writes gdf' (take n targets)) ∧
  ∀ (k : nat) (path : string) (ser : GDF → F),
    targets !! k = Some (path, ser) →
    (∀ t, t ∈ take k targets → writable inp t.1 = true) →
    writable inp path = false →
    raised o = Some (OSError path) ∧
    effects (events o) = SessionAssign gdf' :: writes gdf' (take k targets) ∧
    (∀ t, t ∈ take k targets → disk (final o) !! t.1 = Some (t.2 gdf')) ∧
    (∀ t, t ∈ drop k targets → disk (final o) !! t.1 = fs !! t.1).
Proof.
  intros Hd He Hv Hc gdf' o. subst o gdf'.
  pose proof (handle_save inp gdf fs header d Hd He Hv Hc) as Hh. cbn zeta in Hh.
  assert (∀ (k : nat) (path : string) (ser : GDF → F),
    targets !! k = Some (path, ser) →
    (∀ t, t ∈ take k targets → writable inp t.1 = true) →
    writable inp path = false →
    raised (run inp (mkWorld (Some gdf) fs)) = Some (OSError path) ∧
    effects (events (run inp (mkWorld (Some gdf) fs))) =
      SessionAssign (saved_frame gdf (new_record inp gdf (shape (feature_geometry d))))
      :: writes (saved_frame gdf (new_record inp gdf (shape (feature_geometry d))))
           (take k targets) ∧
    (∀ t, t ∈ take k targets →
       disk (final (run inp (mkWorld (Some gdf) fs))) !! t.1 =
         Some (t.2 (saved_frame gdf (new_record inp gdf (shape (feature_geometry d)))))) ∧
    (∀ t, t ∈ drop k targets →
       disk (final (run inp (mkWorld (Some gdf) fs))) !! t.1 = fs !! t.1)) as Hfails.
  { intros k path ser Hk Hbefore Hfail.
    rewrite (persist_fails _ _ _ _ _ k path ser) in Hh by done.
    after_handler Hh es Hes. destruct (Hraised _ eq_refl) as [-> ->].
    split_and!; try done.
    - observe. by destruct k as [|[|[|k]]].
    - intros t Ht. cbn.
      destruct k as [|[|[|k]]]; simplify_eq/=; set_unfold; destruct_or?; simplify_eq/=;
        try done; by repeat (rewrite lookup_insert_eq || rewrite lookup_insert_ne by done).
    - intros t Ht. cbn.
      destruct k as [|[|[|k]]]; simplify_eq/=; set_unfold; destruct_or?; simplify_eq/=;
        try done; by repeat (rewrite lookup_insert_eq || rewrite lookup_insert_ne by done). }
  destruct (run_save_session inp gdf fs d Hd He Hv Hc) as (Hs & _ & _).
  split_and!; [exact Hs|done| |exact Hfails].
  destruct (first_failure inp) as [Hall | (k & path & ser & Hk & Hbefore & Hfail)].
  - exists 3. rewrite persist_succeeds in Hh by done.
    after_handler Hh es Hes. by observe.
  - exists k. by destruct (Hfails k path ser) as (_ & -> & _).
Qed.

(** C6. The loader takes the GeoPackage when it exists, else the GeoJSON
    file when it exists, else the Parquet file when it exists; when none of
    the three exists it returns the empty collection with the columns name,
    timestamp and geometry in EPSG:4326.  On a disk without the three files
    the first execution raises nothing unless it saves: then a write fails,
    or the save goes through and the map preview of the new record raises.
    With no drawing it shows the plain page. *)
Theorem loader_preference_order (fs : gmap string F) :
  (∀ f, fs !! GPKG_PATH = Some f → load_gdf fs = read_file f) ∧
  (∀ f, fs !! GPKG_PATH = None → fs !! GEOJSON_PATH = Some f →
        load_gdf fs = read_file f) ∧
  (∀ f, fs !! GPKG_PATH = None → fs !! GEOJSON_PATH = None →
        fs !! PARQUET_PATH = Some f → load_gdf fs = read_parquet f) ∧
  (fs !! GPKG_PATH = None → fs !! GEOJSON_PATH = None → fs !! PARQUET_PATH = None →
     load_gdf fs =
       Ok {| columns := ["name"; "timestamp"; "geometry"];
             crs := Some 4326%Z; rows := [] |} ∧
     ∀ inp : Inputs J,
       let o := run inp (mkWorld None fs) in
       (raised o = None ∨
        (∃ p, raised o = Some (OSError p)) ∨
        (raised o = Some StreamlitAPIException ∧ saved o = true)) ∧
       (drawings inp ≫= last = None →
          raised o = None ∧
          final o = mkWorld (Some empty_gdf) fs ∧
          page (events o) =
            [Title "🗺️  Draw Your Area of Interest (v2.1)";
             Markdown ResponsiveMapCss; Html LeafletResizeJs; StFolium leaflet_map;
             Info msg_info;
             Caption "Built with ❤️ & neon vibes (front end only) at YourTechStartup"])).
Proof.
  unfold load_gdf, os_path_exists, gpd_read_file, gpd_read_parquet.
  split_and!.
  - by intros f ->.
  - by intros f -> ->.
  - by intros f -> -> ->.
  - intros H1 H2 H3. rewrite H1, H2, H3. split; [done|]. intros inp.
    pose proof (run_uninitialised inp fs) as Hrun.
    unfold load_gdf, os_path_exists in Hrun. rewrite H1, H2, H3 in Hrun.
    destruct Hrun as (Hf & Hev & Hr).
    assert (saved (run inp (mkWorld None fs))
            = saved (run inp (mkWorld (Some empty_gdf) fs))) as Hsv.
    { unfold saved. by rewrite Hev. }
    rewrite Hf, Hr, Hsv. split.
    + destruct (handler_cases inp) as [Hns | (d & Hd & He & Hv & Hc)].
      * left. destruct (run_no_save inp empty_gdf fs Hns) as (evs & -> & _).
        by rewrite display_eq.
      * right.
        destruct (first_failure inp) as [Hall | (k & path & ser & Hk & Hb & Hfail)].
        -- right. split.
           ++ rewrite (run_save_ok inp empty_gdf fs d) by done. cbn zeta.
              rewrite display_stops;
                [done|apply gdf_empty_saved_frame|by rewrite has_coordinates_saved_frame].
           ++ destruct (run_save_session inp empty_gdf fs d Hd He Hv Hc) as (_ & _ & ->).
              done.
        -- left. exists path. by rewrite (run_save_fails inp empty_gdf fs d k path ser).
    + intros Hd. rewrite Hev.
      rewrite (run_handled _ _ _ _ (handle_none inp empty_gdf fs header Hd)).
      by rewrite (display_empty _ _ empty_gdf).
Qed.

(** C2. The viewer of a non-empty collection without latitude and longitude
    columns stops at the map preview: [st.map] raises after the table was
    shown, so no download is offered and the caption is not reached.  The
    table is a function of the collection in the session; of the three
    download payloads none is produced, on any disk.  The execution leaves
    session and disk as they were. *)
Theorem viewer_stops_at_map (inp : Inputs J) (gdf : GDF) (fs : gmap string F) :
  no_save inp →
  gdf_empty gdf = false →
  has_coordinates gdf = false →
  let v := render_viewer (J:=J) gdf fs in
  let o := run inp (mkWorld (Some gdf) fs) in
  v = {| final := mkWorld (Some gdf) fs;
         events := table_view gdf;
         raised := Some StreamlitAPIException |} ∧
  raised o = Some StreamlitAPIException ∧
  tables (events o) = [drop_geometry gdf] ∧
  downloads (events o) = [] ∧
  captions (events o) = [] ∧
  final o = mkWorld (Some gdf) fs.
Proof.
  intros Hns He Hc v o. subst v o. split.
  - unfold render_viewer, viewer, st_map, outcome_of, bind, st, emit, raise,
      get_session_gdf. cbn. by rewrite He, Hc.
  - destruct (run_no_save inp gdf fs Hns) as (evs & -> & Ht & Hdl & Hcap & _).
    rewrite display_stops by done. unfold outcome_of. cbn [fst snd final events raised].
    autorewrite with observe. rewrite Ht, Hdl, Hcap. by split_and!.
Qed.

(** C1, as the script has it.  A save inserts a record only after both
    checks on its geometry passed and leaves the frame in EPSG:4326, and
    nothing else changes the collection; the loader takes a file as it is.
    So when the collection the session starts with (the empty one, or a
    loaded file) satisfies the invariant, every reachable state does. *)
Theorem invariant_preserved (fs0 : gmap string F) :
  (∀ gdf, load_gdf fs0 = Ok gdf → collection_ok gdf = true) →
  ∀ w : W, reachable (J:=J) fs0 w → invariant w.
Proof.
  intros Hload w Hreach.
  enough (invariant w ∧ (session_gdf w = None → disk w = fs0)) by tauto.
  assert (∀ inp gdf fs, collection_ok gdf = true →
            invariant (final (run inp (mkWorld (Some gdf) fs))) ∧
            is_Some (session_gdf (final (run inp (mkWorld (Some gdf) fs))))) as Hstep.
  { intros inp gdf fs Hok.
    destruct (run_step inp gdf fs) as (gdf' & Hs & _ & Hcases).
    split; [|by rewrite Hs]. intros g. rewrite Hs. intros [= <-].
    destruct Hcases as [(-> & _) | (d & _ & He & Hv & -> & _)]; [done|].
    unfold collection_ok, saved_frame in *. cbn.
    apply andb_prop in Hok as [_ Hrows].
    rewrite forallb_app, Hrows. cbn. unfold record_ok, new_record. cbn.
    by rewrite He, Hv. }
  induction Hreach as [|w inp Hreach [IHinv IHdisk]].
  - split; [|done]. by intros gdf [=].
  - destruct w as [[gdf|] fs].
    + destruct (Hstep inp gdf fs) as [Hinv [g Hg]]; [by apply IHinv|].
      split; [done|]. by rewrite Hg.
    + cbn in IHdisk. specialize (IHdisk eq_refl) as ->.
      pose proof (run_uninitialised inp fs0) as Hrun.
      destruct (load_gdf fs0) as [gdf|e] eqn:Hl.
      * destruct Hrun as (-> & _).
        destruct (Hstep inp gdf fs0) as [Hinv [g Hg]]; [by apply Hload|].
        split; [done|]. by rewrite Hg.
      * rewrite Hrun. cbn. split; [|done]. by intros gdf [=].
Qed.

(** C4. The collection after a sequence of executions is the collection
    before it, unchanged and in place, followed by the records of the saves
    in the order saved: every save appends one record at the end, no
    execution removes or changes a record.  With no failing write the
    collection has grown by exactly the number of successful saves: after
    [N] of them it holds [N] records more than the session started with. *)
Theorem saves_append_in_order (inps : list (Inputs J)) (gdf : GDF) (fs : gmap string F) :
  let w := mkWorld (Some gdf) fs in
  let os := outcomes inps w in
  ∃ gdf', session_gdf (run_many inps w) = Some gdf' ∧
    rows gdf' = rows gdf ++ concat (appended <$> os) ∧
    Forall (λ o, length (appended o) ≤ 1 ∧ (saved o = true → length (appended o) = 1)) os ∧
    ((∀ inp, inp ∈ inps → all_writable inp = true) →
       length (rows gdf') = length (rows gdf) + length (filter (λ o, saved o = true) os)).
Proof.
  cbn zeta. revert gdf fs.
  induction inps as [|inp inps IH]; intros gdf fs.
  - exists gdf. cbn. rewrite app_nil_r. split_and!; try done.
  - rewrite run_many_cons, outcomes_cons, fmap_cons, concat_cons.
    destruct (run_step inp gdf fs) as (gdf1 & Hs & Hrows & Hcases).
    destruct (final (run inp (mkWorld (Some gdf) fs))) as [s1 fs1] eqn:Hfinal.
    cbn in Hs. subst s1.
    destruct (IH gdf1 fs1) as (gdf' & Hs' & Hrows' & Hall & Hcount).
    exists gdf'. split; [done|]. split; [by rewrite Hrows', Hrows, app_assoc|].
    split.
    + constructor; [|done].
      destruct Hcases as [(_ & -> & ->) | (d & _ & _ & _ & _ & -> & _)]; cbn; split; auto.
      done.
    + intros Hw. rewrite Hcount by (intros; apply Hw; by apply list_elem_of_further).
      rewrite filter_cons.
      destruct Hcases as [(-> & _ & Hsv) | (d & _ & _ & _ & -> & _ & Hsv)].
      * rewrite decide_False by (by rewrite Hsv). done.
      * rewrite Hw in Hsv by apply list_elem_of_here. rewrite decide_True by done.
        unfold saved_frame. cbn. rewrite length_app. cbn. lia.
Qed.

(** *** Further results *)

(** X1. A session started on a disk without the three files never gets past
    the map preview.  No execution of such a session offers a download; the
    collection never has latitude and longitude columns; and every execution
    that leaves a non-empty collection ends in an exception before the
    caption. *)
Theorem fresh_session_offers_no_download (fs0 : gmap string F) (w : W) (inp : Inputs J) :
  fs0 !! GPKG_PATH = None → fs0 !! GEOJSON_PATH = None → fs0 !! PARQUET_PATH = None →
  reachable (J:=J) fs0 w →
  let o := run inp w in
  downloads (events o) = [] ∧
  ∃ gdf', session_gdf (final o) = Some gdf' ∧ has_coordinates gdf' = false ∧
    (gdf_empty gdf' = false → raised o ≠ None ∧ captions (events o) = []).
Proof.
  intros H1 H2 H3 Hreach.
  assert (load_gdf fs0 = Ok empty_gdf) as Hload.
  { unfold load_gdf, os_path_exists. by rewrite H1, H2, H3. }
  assert (∀ inp, let o := run inp (mkWorld None fs0) in
            downloads (events o) = [] ∧
            ∃ gdf', session_gdf (final o) = Some gdf' ∧ has_coordinates gdf' = false ∧
              (gdf_empty gdf' = false → raised o ≠ None ∧ captions (events o) = []))
    as Hfirst.
  { intros inp0. cbn zeta.
    pose proof (run_uninitialised inp0 fs0) as Hrun. rewrite Hload in Hrun.
    destruct Hrun as (-> & -> & ->).
    by apply (run_without_coordinates inp0 empty_gdf fs0). }
  enough ((session_gdf w = None → w = mkWorld None fs0) ∧
          (∀ gdf, session_gdf w = Some gdf → has_coordinates gdf = false)) as [Hnone Hsome].
  { destruct w as [[gdf|] fs].
    - apply run_without_coordinates. by apply Hsome.
    - rewrite (Hnone eq_refl). apply Hfirst. }
  clear inp. induction Hreach as [|w inp Hreach [IHnone IHsome]].
  - split; [done|]. by intros gdf [=].
  - destruct w as [[gdf|] fs].
    + destruct (run_without_coordinates inp gdf fs (IHsome gdf eq_refl))
        as (_ & gdf' & Hs & Hco & _).
      rewrite Hs. split; [done|]. by intros g [= <-].
    + rewrite (IHnone eq_refl).
      destruct (Hfirst inp) as (_ & gdf' & Hs & Hco & _).
      rewrite Hs. split; [done|]. by intros g [= <-].
Qed.

(** X2. A session that loads a non-empty collection without latitude and
    longitude columns from a file ends its first execution, and every later
    one that saves nothing, at the map preview: the table is shown, no
    download is offered, the loaded collection is in the session. *)
Theorem loaded_session_stops_at_map (inp : Inputs J) (fs : gmap string F) (gdf : GDF) :
  no_save inp →
  load_gdf fs = Ok gdf → gdf_empty gdf = false → has_coordinates gdf = false →
  let o := run inp (mkWorld None fs) in
  raised o = Some StreamlitAPIException ∧
  final o = mkWorld (Some gdf) fs ∧
  assignments (events o) = [gdf] ∧
  tables (events o) = [drop_geometry gdf] ∧
  downloads (events o) = [] ∧
  raised (run inp (final o)) = Some StreamlitAPIException ∧
  final (run inp (final o)) = final o.
Proof.
  intros Hns Hload Hne Hco o. subst o.
  pose proof (run_uninitialised inp fs) as Hrun. rewrite Hload in Hrun.
  destruct Hrun as (-> & -> & ->).
  destruct (run_no_save inp gdf fs Hns) as (evs & -> & Ht & Hdl & _ & Heff & _).
  destruct (effects_nil _ Heff) as [Ha _].
  rewrite display_stops by done. unfold outcome_of. cbn [fst snd final events raised].
  destruct (run_no_save inp gdf fs Hns) as (evs' & -> & _).
  rewrite display_stops by done.
  change (assignments (SessionAssign gdf :: ?l)) with (gdf :: assignments l).
  change (tables (SessionAssign gdf :: ?l)) with (tables l).
  change (downloads (SessionAssign gdf :: ?l)) with (downloads l).
  autorewrite with observe. rewrite Ha, Ht, Hdl. by split_and!.
Qed.

(** X3. On an empty collection an execution that saves nothing shows no
    table and no download and opens no file: it ends without exception,
    with the caption, whatever is on the disk. *)
Theorem empty_collection_renders_nothing (inp : Inputs J) (gdf : GDF)
    (fs : gmap string F) :
  no_save inp → gdf_empty gdf = true →
  let o := run inp (mkWorld (Some gdf) fs) in
  raised o = None ∧ tables (events o) = [] ∧ downloads (events o) = [] ∧
  captions (events o) = [caption_text] ∧
  final o = mkWorld (Some gdf) fs.
Proof.
  intros Hns He o. subst o.
  destruct (run_no_save inp gdf fs Hns) as (evs & -> & Ht & Hd & Hc & _).
  rewrite display_eq, He. unfold outcome_of. cbn [fst snd final events raised].
  autorewrite with observe. rewrite Ht, Hd, Hc. by split_and!.
Qed.

(** X4. Without a drawing (no output of the map, no drawings entry, or an
    empty list of drawings) the page shows the hint and neither a verdict
    nor the name box, and nothing changes; with a drawing the hint is not
    shown. *)
Theorem no_drawing_shows_hint (inp : Inputs J) (gdf : GDF) (fs : gmap string F) :
  let o := run inp (mkWorld (Some gdf) fs) in
  (output inp = None ∨
   (∃ out, output inp = Some out ∧
           (all_drawings out = None ∨ all_drawings out = Some [])) →
   infos (events o) = [msg_info] ∧ verdicts (events o) = [] ∧
   offered_names (events o) = [] ∧ effects (events o) = [] ∧
   final o = mkWorld (Some gdf) fs) ∧
  (∀ d, drawings inp ≫= last = Some d → infos (events o) = []).
Proof.
  intros o. subst o. split.
  - intros Hfalsy.
    assert (drawings inp ≫= last = None) as Hd.
    { unfold drawings. destruct Hfalsy as [-> | (out & -> & [-> | ->])]; done. }
    pose proof (handle_none inp gdf fs header Hd) as Hh.
    destruct (run_after_handler _ _ _ _ _ _ Hh) as (es & -> & -> & Hes & _).
    destruct (display_silent es Hes) as (?&?&?&?&?&?).
    autorewrite with observe. rewrite (display_no_info es Hes). observe.
    by split_and!.
  - intros d Hd. apply (run_infos inp gdf fs d Hd).
Qed.

(** X5. A save whose three writes succeed: the confirmation names the
    record, the session holds the new collection, each of the three files
    holds the whole new collection in its format, every other path is as it
    was, and the table of the same execution shows the new collection.  On
    a collection without latitude and longitude columns the execution then
    ends at the map preview: after the confirmation, with no download
    offered. *)
Theorem successful_save_in_lockstep (inp : Inputs J) (gdf : GDF) (fs : gmap string F)
    (d : Feature J) :
  drawings inp ≫= last = Some d →
  is_empty (shape (feature_geometry d)) = false →
  is_valid (shape (feature_geometry d)) = true →
  save_clicked inp = true →
  all_writable inp = true →
  let r := new_record inp gdf (shape (feature_geometry d)) in
  let gdf' := saved_frame gdf r in
  let o := run inp (mkWorld (Some gdf) fs) in
  successes (events o) = [confirmation (name r)] ∧
  session_gdf (final o) = Some gdf' ∧
  disk (final o) !! GPKG_PATH = Some (to_file GPKG gdf') ∧
  disk (final o) !! GEOJSON_PATH = Some (to_file GeoJSON gdf') ∧
  disk (final o) !! PARQUET_PATH = Some (to_parquet gdf') ∧
  (∀ p, p ≠ GPKG_PATH → p ≠ GEOJSON_PATH → p ≠ PARQUET_PATH →
        disk (final o) !! p = fs !! p) ∧
  tables (events o) = [drop_geometry gdf'] ∧
  (has_coordinates gdf = false →
     raised o = Some StreamlitAPIException ∧
     downloads (events o) = [] ∧ captions (events o) = []).
Proof.
  intros Hd He Hv Hc Hall r gdf' o. subst o gdf' r.
  rewrite (run_save_ok inp gdf fs d) by done.
  destruct (written_targets
              (saved_frame gdf (new_record inp gdf (shape (feature_geometry d)))) fs)
    as (H1 & H2 & H3 & H4).
  rewrite display_eq, gdf_empty_saved_frame, H1, H3, has_coordinates_saved_frame.
  destruct (has_coordinates gdf);
    [destruct (to_json (saved_frame gdf
                 (new_record inp gdf (shape (feature_geometry d)))))|];
    unfold outcome_of; cbn [fst snd final events raised disk session_gdf];
    split_and!; done.
Qed.

(** X6. The confirmation is shown only after a real save: a validated last
    drawing, a click, the collection with the new record in the session,
    and all three files written with this collection. *)
Theorem confirmation_means_saved (inp : Inputs J) (gdf : GDF) (fs : gmap string F) :
  let o := run inp (mkWorld (Some gdf) fs) in
  saved o = true →
  ∃ d, drawings inp ≫= last = Some d ∧
       is_empty (shape (feature_geometry d)) = false ∧
       is_valid (shape (feature_geometry d)) = true ∧
       save_clicked inp = true ∧
       let gdf' := saved_frame gdf (new_record inp gdf (shape (feature_geometry d))) in
       session_gdf (final o) = Some gdf' ∧
       disk (final o) !! GPKG_PATH = Some (to_file GPKG gdf') ∧
       disk (final o) !! GEOJSON_PATH = Some (to_file GeoJSON gdf') ∧
       disk (final o) !! PARQUET_PATH = Some (to_parquet gdf').
Proof.
  intros o Hsaved. subst o.
  assert (saved (run inp (mkWorld (Some gdf) fs)) = false → False) as Hno
    by (by rewrite Hsaved).
  destruct (drawings inp ≫= last) as [d|] eqn:Hd.
  2: { destruct Hno. apply run_idle. by left. }
  destruct (is_empty (shape (feature_geometry d))) eqn:He.
  { destruct Hno. apply (run_rejected _ _ _ d); auto. }
  destruct (is_valid (shape (feature_geometry d))) eqn:Hv.
  2: { destruct Hno. apply (run_rejected _ _ _ d); auto. }
  destruct (save_clicked inp) eqn:Hc.
  2: { destruct Hno. apply run_idle. by right. }
  destruct (run_save_session inp gdf fs d Hd He Hv Hc) as (_ & _ & Hsv).
  rewrite Hsaved in Hsv. symmetry in Hsv.
  exists d. split_and!; try done. cbn zeta.
  rewrite (run_save_ok inp gdf fs d) by done.
  destruct (written_targets
              (saved_frame gdf (new_record inp gdf (shape (feature_geometry d)))) fs)
    as (H1 & H2 & H3 & H4).
  match goal with |- context [display (?w, ?evs)] =>
    destruct (display_spec w evs) as (es & res & -> & _)
  end.
  unfold outcome_of. cbn [fst snd final events raised disk session_gdf].
  by split_and!.
Qed.

(** X7. Once the session holds a collection, the files are never read into
    it again: the collection after an execution, and the assignments the
    execution makes, are the same on any two disks. *)
Theorem session_ignores_disk (inp : Inputs J) (gdf : GDF) (fs1 fs2 : gmap string F) :
  session_gdf (final (run inp (mkWorld (Some gdf) fs1)))
    = session_gdf (final (run inp (mkWorld (Some gdf) fs2))) ∧
  appended (run inp (mkWorld (Some gdf) fs1)) = appended (run inp (mkWorld (Some gdf) fs2)).
Proof.
  assert (∀ fs, final (run inp (mkWorld (Some gdf) fs)) = mkWorld (Some gdf) fs ∧
                effects (events (run inp (mkWorld (Some gdf) fs))) = [] →
                session_gdf (final (run inp (mkWorld (Some gdf) fs))) = Some gdf ∧
                appended (run inp (mkWorld (Some gdf) fs)) = []) as Hsame.
  { intros fs [Hw Heff]. destruct (effects_nil _ Heff) as [Ha _].
    unfold appended. by rewrite Hw, Ha. }
  assert ((∀ fs, final (run inp (mkWorld (Some gdf) fs)) = mkWorld (Some gdf) fs ∧
                 effects (events (run inp (mkWorld (Some gdf) fs))) = []) →
          session_gdf (final (run inp (mkWorld (Some gdf) fs1)))
            = session_gdf (final (run inp (mkWorld (Some gdf) fs2))) ∧
          appended (run inp (mkWorld (Some gdf) fs1))
            = appended (run inp (mkWorld (Some gdf) fs2))) as Hboth.
  { intros H.
    destruct (Hsame fs1 (H fs1)) as [-> ->]. by destruct (Hsame fs2 (H fs2)) as [-> ->]. }
  destruct (drawings inp ≫= last) as [d|] eqn:Hd.
  2: { apply Hboth. intros fs. destruct (run_idle inp gdf fs) as (?&?&?); auto. }
  destruct (is_empty (shape (feature_geometry d))) eqn:He.
  { apply Hboth. intros fs. destruct (run_rejected inp gdf fs d) as (?&?&?); auto. }
  destruct (is_valid (shape (feature_geometry d))) eqn:Hv.
  2: { apply Hboth. intros fs. destruct (run_rejected inp gdf fs d) as (?&?&?); auto. }
  destruct (save_clicked inp) eqn:Hc.
  2: { apply Hboth. intros fs. destruct (run_idle inp gdf fs) as (?&?&?); auto. }
  destruct (run_save_session inp gdf fs1 d Hd He Hv Hc) as (-> & Ha1 & _).
  destruct (run_save_session inp gdf fs2 d Hd He Hv Hc) as (-> & Ha2 & _).
  unfold appended. by rewrite Ha1, Ha2.
Qed.

(** X8. A GeoPackage that cannot be read blocks the session: the loader
    raises without trying the GeoJSON or the Parquet file, the execution
    ends before anything is rendered, the session stays without collection,
    and every later execution meets the same exception. *)
Theorem unreadable_geopackage_blocks_session (fs : gmap string F) (f : F) (e : Exn)
    (inps : list (Inputs J)) :
  fs !! GPKG_PATH = Some f → read_file f = Raise e →
  load_gdf fs = Raise e ∧
  run_many inps (mkWorld None fs) = mkWorld None fs ∧
  Forall (λ o, events o = [] ∧ raised o = Some e) (outcomes inps (mkWorld None fs)).
Proof.
  intros Hf He.
  assert (load_gdf fs = Raise e) as Hload.
  { unfold load_gdf, os_path_exists, gpd_read_file. by rewrite Hf. }
  split; [done|].
  induction inps as [|inp inps [IHw IHo]]; [done|].
  rewrite run_many_cons, outcomes_cons.
  pose proof (run_uninitialised inp fs) as Hrun. rewrite Hload in Hrun.
  rewrite Hrun. cbn [final]. split; [done|]. by constructor.
Qed.

(** X9. No execution deletes a file or touches a path other than the three:
    over any session, a file that exists keeps existing, and every path
    other than [aois.gpkg], [aois.geojson] and [aois.parquet] holds what it
    held. *)
Theorem files_never_deleted (inps : list (Inputs J)) (w : W) (p : string) :
  (is_Some (disk w !! p) → is_Some (disk (run_many inps w) !! p)) ∧
  (p ≠ GPKG_PATH → p ≠ GEOJSON_PATH → p ≠ PARQUET_PATH →
   disk (run_many inps w) !! p = disk w !! p).
Proof.
  revert w. induction inps as [|inp inps IH]; intros w; [done|].
  rewrite run_many_cons.
  destruct (run_disk_any inp w) as (n & gdf' & Hdisk).
  destruct (written_lookup gdf' n (disk w) p) as [Hkeep Hother].
  destruct (IH (final (run inp w))) as [IHkeep IHother].
  rewrite Hdisk in IHkeep, IHother. split.
  - intros Hp. by apply IHkeep, Hkeep.
  - intros H1 H2 H3. by rewrite IHother, Hother.
Qed.

(** X10. The drawing stays in the buffer of the map after a save, and
    nothing compares a new record with the collection: a second click on
    save with the same last drawing appends the same geometry again, under
    the next default name when the name box is left alone. *)
Theorem repeated_save_appends_again (inp : Inputs J) (gdf : GDF) (fs : gmap string F)
    (d : Feature J) :
  drawings inp ≫= last = Some d →
  is_empty (shape (feature_geometry d)) = false →
  is_valid (shape (feature_geometry d)) = true →
  save_clicked inp = true →
  ∃ gdf2 r1 r2,
    session_gdf (run_many [inp; inp] (mkWorld (Some gdf) fs)) = Some gdf2 ∧
    rows gdf2 = rows gdf ++ [r1; r2] ∧
    geometry r1 = shape (feature_geometry d) ∧
    geometry r2 = shape (feature_geometry d) ∧
    (typed_name inp = None →
       name r1 = "AOI " +:+ pretty (length (rows gdf) + 1) ∧
       name r2 = "AOI " +:+ pretty (length (rows gdf) + 2)).
Proof.
  intros Hd He Hv Hc.
  rewrite !run_many_cons.
  destruct (run_save_session inp gdf fs d Hd He Hv Hc) as (Hs1 & _).
  destruct (final (run inp (mkWorld (Some gdf) fs))) as [s1 fs1]. cbn in Hs1. subst s1.
  destruct (run_save_session inp
              (saved_frame gdf (new_record inp gdf (shape (feature_geometry d))))
              fs1 d Hd He Hv Hc) as (Hs2 & _).
  eexists _, _, _. split; [exact Hs2|].
  unfold saved_frame at 1. cbn [rows]. unfold saved_frame at 1. cbn [rows].
  rewrite <- app_assoc. split; [done|]. split; [done|]. split; [done|].
  intros Htyped. unfold new_record, default_name, len, saved_frame.
  cbn [name rows]. rewrite Htyped. cbn [default]. split; [done|].
  rewrite length_app. cbn [length].
  by replace (length (rows gdf) + 1 + 1) with (length (rows gdf) + 2) by lia.
Qed.

(** X11. Save, then restart: after a save whose three writes succeeded, a
    new session reads the GeoPackage of that save, and nothing else.  What
    the reader makes of that file is the collection of the new session; when
    the reader raises, the new session stays without collection and its
    execution ends before anything is rendered. *)
Theorem restart_restores_collection (inp inp' : Inputs J) (gdf : GDF)
    (fs : gmap string F) (d : Feature J) :
  drawings inp ≫= last = Some d →
  is_empty (shape (feature_geometry d)) = false →
  is_valid (shape (feature_geometry d)) = true →
  save_clicked inp = true →
  all_writable inp = true →
  let gdf' := saved_frame gdf (new_record inp gdf (shape (feature_geometry d))) in
  let fs' := disk (final (run inp (mkWorld (Some gdf) fs))) in
  let o' := run inp' (mkWorld None fs') in
  load_gdf fs' = read_file (to_file GPKG gdf') ∧
  (∀ g, read_file (to_file GPKG gdf') = Ok g →
     head (assignments (events o')) = Some g ∧
     (no_save inp' → final o' = mkWorld (Some g) fs')) ∧
  (∀ e, read_file (to_file GPKG gdf') = Raise e →
     o' = {| final := mkWorld None fs'; events := []; raised := Some e |}).
Proof.
  intros Hd He Hv Hc Hall gdf' fs' o'. subst o'.
  assert (load_gdf fs' = read_file (to_file GPKG gdf')) as Hload
    by (by apply load_after_save).
  pose proof (run_uninitialised inp' fs') as Hrun. rewrite Hload in Hrun.
  split_and!; [done| |].
  - intros g Hg. rewrite Hg in Hrun. destruct Hrun as (-> & -> & _).
    split; [done|]. intros Hns. by apply run_no_save_final.
  - intros e He'. by rewrite He' in Hrun.
Qed.

End Properties.

(** ** The script on concrete drawings *)

Import Planar.

Example square_is_valid : is_empty square = false ∧ is_valid square = true.
Proof. by vm_compute. Qed.

Example bowtie_is_invalid : is_empty bowtie = false ∧ is_valid bowtie = false.
Proof. by vm_compute. Qed.

(** The three outcomes of the checks, on an empty ring, a bowtie and a
    square, each drawn after an earlier shape. *)
Lemma validator_classifies_witness :
  verdicts (events (run (draw [square; []] None false 0 always)
                        (mkWorld (Some (frame [park])) (all_files (frame [park])))))
    = [IsEmpty] ∧
  verdicts (events (run (draw [square; bowtie] None false 0 always)
                        (mkWorld (Some (frame [park])) (all_files (frame [park])))))
    = [SelfInvalid] ∧
  verdicts (events (run (draw [bowtie; square] None true 0 always)
                        (mkWorld (Some (frame [park])) (all_files (frame [park])))))
    = [Valid].
Proof.
  split_and!.
  - apply (validator_classifies (frame [park]) (all_files (frame [park]))
             (draw [square; []] None false 0 always) (mkFeature [])); reflexivity.
  - apply (validator_classifies (frame [park]) (all_files (frame [park]))
             (draw [square; bowtie] None false 0 always) (mkFeature bowtie)); reflexivity.
  - apply (validator_classifies (frame [park]) (all_files (frame [park]))
             (draw [bowtie; square] None true 0 always) (mkFeature square)); reflexivity.
Defined.

(** A bowtie with a click on save: nothing is assigned, nothing is written. *)
Lemma rejection_changes_nothing_witness :
  let o := run (draw [bowtie] (Some "Knot") true 300 always)
               (mkWorld (Some (frame [park])) (all_files (frame [park]))) in
  final o = mkWorld (Some (frame [park])) (all_files (frame [park])) ∧
  assignments (events o) = [] ∧ file_writes (events o) = [] ∧ saved o = false.
Proof.
  apply (rejection_changes_nothing (frame [park]) (all_files (frame [park]))
           (draw [bowtie] (Some "Knot") true 300 always) (mkFeature bowtie)).
  - reflexivity.
  - right. reflexivity.
Defined.

(** A collection whose only record was renamed ["AOI 2"]: the next save is
    offered ["AOI 2"] again, and taking it gives two records of that name. *)
Lemma default_name_offered_witness :
  let gdf := frame [mkAOI "AOI 2" 100 square] in
  let o := run (draw [triangle] None true 200 always) (mkWorld (Some gdf) (all_files gdf)) in
  offered_names (events o) = ["AOI 2"] ∧
  ∃ gdf', session_gdf (final o) = Some gdf' ∧
    name <$> rows gdf' = ["AOI 2"; "AOI 2"] ∧ ¬ NoDup (name <$> rows gdf').
Proof.
  intros gdf o.
  destruct (default_name_offered gdf (all_files gdf)
              (draw [triangle] None true 200 always) (mkFeature triangle))
    as [Hoffered Hsave]; [reflexivity..|].
  split; [exact Hoffered|].
  destruct Hsave as (gdf' & Hs & Hnames & Hdup); [reflexivity|].
  exists gdf'. split_and!; [exact Hs|exact Hnames|].
  apply Hdup. by apply list_elem_of_singleton.
Defined.

(** The GeoJSON file cannot be written: the session has the new record, the
    GeoPackage holds the new collection, the two other files are as before. *)
Lemma save_has_no_rollback_witness :
  let gdf := frame [park] in
  let gdf' := frame [park; lake] in
  let o := run (draw [triangle] (Some "Lake") true 200 (all_but GEOJSON_PATH))
               (mkWorld (Some gdf) (all_files gdf)) in
  raised o = Some (OSError GEOJSON_PATH) ∧
  session_gdf (final o) = Some gdf' ∧
  effects (events o) = [SessionAssign gdf'; FileWrite GPKG_PATH (GpkgFile gdf')] ∧
  disk (final o) !! GPKG_PATH = Some (GpkgFile gdf') ∧
  disk (final o) !! GEOJSON_PATH = Some (GeoJsonFile gdf) ∧
  disk (final o) !! PARQUET_PATH = Some (ParquetFile gdf).
Proof.
  intros gdf gdf' o.
  destruct (save_has_no_rollback gdf (all_files gdf)
              (draw [triangle] (Some "Lake") true 200 (all_but GEOJSON_PATH))
              (mkFeature triangle))
    as (Hs & _ & _ & Hfails).
  - reflexivity.
  - reflexivity.
  - reflexivity.
  - reflexivity.
  - destruct (Hfails 1 GEOJSON_PATH (to_file GeoJSON))
      as (Hr & Heff & Hbefore & Hafter).
    + reflexivity.
    + intros t Ht. apply list_elem_of_singleton in Ht. by subst t.
    + reflexivity.
    + split_and!.
      * exact Hr.
      * exact Hs.
      * exact Heff.
      * exact (Hbefore (GPKG_PATH, to_file GPKG) (list_elem_of_here _ _)).
      * exact (Hafter (GEOJSON_PATH, to_file GeoJSON) (list_elem_of_here _ _)).
      * exact (Hafter (PARQUET_PATH, to_parquet)
                 (list_elem_of_further _ _ _ (list_elem_of_here _ _))).
Defined.

(** A session that starts without files and saves a square. *)
Lemma invariant_preserved_witness :
  invariant (final (run (draw [bowtie; square] None true 1000 always)
                        (mkWorld None no_files))) ∧
  session_gdf (final (run (draw [bowtie; square] None true 1000 always)
                          (mkWorld None no_files)))
    = Some (frame [mkAOI "AOI 1" 1000 square]).
Proof.
  split; [|reflexivity].
  apply (invariant_preserved no_files).
  - intros gdf Hload. vm_compute in Hload. by injection Hload as <-.
  - apply reachable_step, reachable_start.
Defined.

(** C1, counterexample to the invariant without a condition on the files:
    the loader takes the collection of an existing file as it is, so a
    session started on a GeoPackage that holds a bowtie has a record with an
    invalid geometry in memory. *)
Lemma invariant_counterexample :
  ¬ (∀ (fs0 : gmap string FileData) (w : World Ring FileData),
       reachable (J:=Ring) fs0 w → invariant w).
Proof.
  intros Hclaim.
  specialize (Hclaim (all_files (frame [knot]))
                (final (run idle (mkWorld None (all_files (frame [knot])))))
                (reachable_step _ _ _ (reachable_start _))
                (frame [knot]) eq_refl).
  by vm_compute in Hclaim.
Qed.

(** A session holding one saved record, the three files in step, nothing
    drawn: the table is shown, the map preview raises, no download is
    offered. *)
Lemma viewer_stops_at_map_witness :
  let gdf := frame [park] in
  let o := run idle (mkWorld (Some gdf) (all_files gdf)) in
  raised o = Some StreamlitAPIException ∧
  tables (events o) = [(["name"; "timestamp"], [("Park", 100%Z)])] ∧
  downloads (events o) = [] ∧
  captions (events o) = [] ∧
  render_viewer (J:=Ring) gdf (all_files gdf) =
    {| final := mkWorld (Some gdf) (all_files gdf);
       events := [Render (Subheader "📦 Saved AOIs");
                  Render (Dataframe ["name"; "timestamp"] [("Park", 100%Z)])];
       raised := Some StreamlitAPIException |}.
Proof.
  intros gdf o.
  destruct (viewer_stops_at_map idle gdf (all_files gdf)) as (Hv & Hr & Ht & Hd & Hc & _).
  - by vm_compute.
  - reflexivity.
  - reflexivity.
  - split_and!; [exact Hr|exact Ht|exact Hd|exact Hc|exact Hv].
Defined.

(** Three executions on a collection of one record: a save, a rejected
    bowtie, a save under a default name. *)
Lemma saves_append_in_order_witness :
  let inps := [draw [triangle] (Some "Lake") true 200 always;
               draw [bowtie] (Some "Knot") true 300 always;
               draw [triangle; square] None true 400 always] in
  let w := mkWorld (Some (frame [park])) (all_files (frame [park])) in
  ∃ gdf', session_gdf (run_many inps w) = Some gdf' ∧
    rows gdf' = [park; lake; mkAOI "AOI 3" 400 square] ∧
    length (rows gdf') = 1 + 2.
Proof.
  intros inps w.
  destruct (saves_append_in_order inps (frame [park]) (all_files (frame [park])))
    as (gdf' & Hs & Hrows & _ & Hcount).
  exists gdf'. split_and!.
  - exact Hs.
  - exact Hrows.
  - rewrite Hcount; [reflexivity|].
    intros inp Hin. subst inps. set_unfold in Hin.
    by destruct Hin as [->|[->|[->|[]]]].
Defined.

(** The first execution on a disk without files, and the loader on disks
    holding one, two or three of them. *)
Lemma loader_preference_order_witness :
  load_gdf no_files = Ok (frame []) ∧
  load_gdf (all_files (frame [park])) = Ok (frame [park]) ∧
  load_gdf (<[PARQUET_PATH := ParquetFile (frame [lake])]> (only_geojson (frame [park])))
    = Ok (frame [park]) ∧
  load_gdf (<[PARQUET_PATH := ParquetFile (frame [lake])]> no_files) = Ok (frame [lake]) ∧
  raised (run idle (mkWorld None no_files)) = None ∧
  raised (run (draw [square] None true 5 always) (mkWorld None no_files))
    = Some StreamlitAPIException.
Proof.
  split_and!; [| | | | |by vm_compute].
  - by apply (loader_preference_order (J:=Ring) no_files).
  - destruct (loader_preference_order (J:=Ring) (all_files (frame [park])))
      as (H & _). by rewrite (H (GpkgFile (frame [park]))).
  - destruct (loader_preference_order (J:=Ring)
                (<[PARQUET_PATH := ParquetFile (frame [lake])]>
                   (only_geojson (frame [park])))) as (_ & H & _).
    by rewrite (H (GeoJsonFile (frame [park]))).
  - destruct (loader_preference_order (J:=Ring)
                (<[PARQUET_PATH := ParquetFile (frame [lake])]> no_files))
      as (_ & _ & H & _).
    by rewrite (H (ParquetFile (frame [lake]))).
  - destruct (loader_preference_order (J:=Ring) no_files) as (_ & _ & _ & H).
    destruct H as [_ H]; [reflexivity..|].
    destruct (H idle) as [_ Hidle]. by apply Hidle.
Defined.

(** A square drawn after a bowtie and an empty ring: the square is shown,
    checked and saved, as if it had been drawn alone. *)
Example last_drawing_example :
  let o := run (draw [bowtie; []; square] None true 5 always) (mkWorld None no_files) in
  o = run (draw [square] None true 5 always) (mkWorld None no_files) ∧
  inspected (events o) = [square] ∧
  verdicts (events o) = [Valid] ∧
  session_gdf (final o) = Some (frame [mkAOI "AOI 1" 5 square]).
Proof. by vm_compute. Qed.

(** ** Further executions on concrete drawings *)

(** A session that starts without files and saves a square: the execution
    after the save offers no download and ends in an exception. *)
Lemma fresh_session_offers_no_download_witness :
  let w := final (run (draw [square] None true 7 always) (mkWorld None no_files)) in
  let o := run idle w in
  downloads (events o) = [] ∧ raised o ≠ None ∧ captions (events o) = [].
Proof.
  intros w o.
  destruct (fresh_session_offers_no_download no_files w idle)
    as (Hd & gdf' & Hs & _ & Hrest).
  - reflexivity.
  - reflexivity.
  - reflexivity.
  - apply reachable_step, reachable_start.
  - split; [exact Hd|]. apply Hrest.
    vm_compute in Hs. by injection Hs as <-.
Defined.

(** A collection of two records loaded from the GeoJSON file alone. *)
Lemma loaded_session_stops_at_map_witness :
  let o := run idle (mkWorld None (only_geojson (frame [park; lake]))) in
  raised o = Some StreamlitAPIException ∧
  session_gdf (final o) = Some (frame [park; lake]) ∧
  downloads (events o) = [].
Proof.
  intros o.
  destruct (loaded_session_stops_at_map idle (only_geojson (frame [park; lake]))
              (frame [park; lake])) as (Hr & Hf & _ & _ & Hd & _).
  - by vm_compute.
  - reflexivity.
  - reflexivity.
  - reflexivity.
  - split_and!; [exact Hr| |exact Hd]. fold o in Hf. by rewrite Hf.
Defined.

(** A bowtie drawn on an empty collection, on a disk without files. *)
Lemma empty_collection_renders_nothing_witness :
  let o := run (draw [bowtie] None true 5 always) (mkWorld (Some (frame [])) no_files) in
  raised o = None ∧ tables (events o) = [] ∧ downloads (events o) = [].
Proof.
  intros o.
  destruct (empty_collection_renders_nothing (draw [bowtie] None true 5 always)
              (frame []) no_files) as (Hr & Ht & Hd & _).
  - vm_compute. by right; right.
  - reflexivity.
  - by split_and!.
Defined.

(** The map returned an empty list of drawings. *)
Lemma no_drawing_shows_hint_witness :
  let o := run (draw [] None true 5 always)
               (mkWorld (Some (frame [park])) (all_files (frame [park]))) in
  infos (events o) = [msg_info] ∧ verdicts (events o) = [] ∧
  final o = mkWorld (Some (frame [park])) (all_files (frame [park])).
Proof.
  intros o.
  destruct (no_drawing_shows_hint (draw [] None true 5 always) (frame [park])
              (all_files (frame [park]))) as [Hfalsy _].
  destruct Hfalsy as (Hi & Hv & _ & _ & Hf).
  - right. eexists. split; [reflexivity|]. by right.
  - by split_and!.
Defined.

(** A triangle saved under the name Lake on a disk whose files were stale. *)
Lemma successful_save_in_lockstep_witness :
  let o := run (draw [triangle] (Some "Lake") true 200 always)
               (mkWorld (Some (frame [park])) (only_geojson (frame []))) in
  successes (events o) = ["✅ Saved AOI 'Lake' to files."] ∧
  session_gdf (final o) = Some (frame [park; lake]) ∧
  disk (final o) = all_files (frame [park; lake]) ∧
  tables (events o) = [(["name"; "timestamp"], [("Park", 100%Z); ("Lake", 200%Z)])] ∧
  raised o = Some StreamlitAPIException ∧
  downloads (events o) = [].
Proof.
  intros o.
  destruct (successful_save_in_lockstep (draw [triangle] (Some "Lake") true 200 always)
              (frame [park]) (only_geojson (frame [])) (mkFeature triangle))
    as (Hs & Hg & _ & _ & _ & _ & Ht & Hstop).
  - reflexivity.
  - reflexivity.
  - reflexivity.
  - reflexivity.
  - reflexivity.
  - destruct Hstop as (Hr & Hd & _); [reflexivity|].
    split_and!; [exact Hs|exact Hg|by vm_compute|exact Ht|exact Hr|exact Hd].
Defined.

Lemma confirmation_means_saved_witness :
  let o := run (draw [triangle] (Some "Lake") true 200 always)
               (mkWorld (Some (frame [park])) (only_geojson (frame []))) in
  session_gdf (final o) = Some (frame [park; lake]) ∧
  disk (final o) !! PARQUET_PATH = Some (ParquetFile (frame [park; lake])).
Proof.
  intros o.
  destruct (confirmation_means_saved (draw [triangle] (Some "Lake") true 200 always)
              (frame [park]) (only_geojson (frame [])))
    as (d & Hd & _ & _ & _ & Hs & _ & _ & Hp).
  - reflexivity.
  - injection Hd as <-. split; [exact Hs|exact Hp].
Defined.

(** A corrupt GeoPackage beside a good GeoJSON file. *)
Lemma unreadable_geopackage_blocks_session_witness :
  let fs := <[GPKG_PATH := Corrupt]> (only_geojson (frame [park])) in
  let inps := [idle; draw [square] None true 5 always] in
  load_gdf fs = Raise (DriverError "") ∧
  run_many inps (mkWorld None fs) = mkWorld None fs ∧
  Forall (λ o, events o = [] ∧ raised o = Some (DriverError ""))
    (outcomes inps (mkWorld None fs)).
Proof.
  intros fs inps.
  apply (unreadable_geopackage_blocks_session fs Corrupt (DriverError "") inps);
    reflexivity.
Defined.

(** A session with two saves on a disk that held a GeoJSON file and a file
    of the user's. *)
Lemma files_never_deleted_witness :
  let w := mkWorld None (<["notes.txt" := Corrupt]> (only_geojson (frame [park]))) in
  let inps := [draw [triangle] (Some "Lake") true 200 always;
               draw [square] None true 300 (all_but GPKG_PATH)] in
  is_Some (disk (run_many inps w) !! GEOJSON_PATH) ∧
  disk (run_many inps w) !! "notes.txt" = Some Corrupt.
Proof.
  intros w inps. split.
  - apply (files_never_deleted inps w GEOJSON_PATH). by eexists.
  - by rewrite (proj2 (files_never_deleted inps w "notes.txt")).
Defined.

(** Two clicks on save with the same square in the buffer. *)
Lemma repeated_save_appends_again_witness :
  ∃ gdf2, session_gdf (run_many [draw [square] None true 7 always;
                                 draw [square] None true 7 always]
                         (mkWorld (Some (frame [])) no_files)) = Some gdf2 ∧
    rows gdf2 = [mkAOI "AOI 1" 7 square; mkAOI "AOI 2" 7 square].
Proof.
  destruct (repeated_save_appends_again (draw [square] None true 7 always)
              (frame []) no_files (mkFeature square))
    as (gdf2 & r1 & r2 & Hs & Hrows & _); [reflexivity..|].
  exists gdf2. split; [exact Hs|].
  rewrite Hrows. vm_compute in Hs. by injection Hs as <-.
Defined.

(** Save a triangle, then start a new session on the files it left. *)
Lemma restart_restores_collection_witness :
  let fs' := disk (final (run (draw [triangle] (Some "Lake") true 200 always)
                              (mkWorld (Some (frame [park])) no_files))) in
  load_gdf fs' = Ok (frame [park; lake]) ∧
  final (run idle (mkWorld None fs')) = mkWorld (Some (frame [park; lake])) fs'.
Proof.
  intros fs'.
  destruct (restart_restores_collection (draw [triangle] (Some "Lake") true 200 always)
              idle (frame [park]) no_files (mkFeature triangle))
    as (Hload & Hrestart & _).
  - reflexivity.
  - reflexivity.
  - reflexivity.
  - reflexivity.
  - reflexivity.
  - split; [exact Hload|].
    destruct (Hrestart (frame [park; lake])) as [_ Hfinal]; [reflexivity|].
    apply Hfinal. by vm_compute.
Defined.

